(** * MotorController (ZLAC8030L over CANopen): a shallow embedding

    The Python class [MotorController] of [canopen_controller.py] is
    embedded as functions in a state-and-exception monad.  The state is the
    [canopen.Network] object the controller owns together with the
    observable side effects (bus operations, log lines, sleeps, clock
    reads).  The [canopen] library and the devices on the bus are not part
    of the repository: their behaviour is a parameter [Env] (which library
    calls raise, which nodes answer the scan, what a node reports as its
    DS402 state, what the wall clock reads). *)

From Stdlib Require Import ZArith List String Bool Lia.
Import ListNotations.

Local Open Scope string_scope.
Local Open Scope list_scope.
Local Open Scope Z_scope.

Set Warnings "-register-all".

(** ** Python values that reach the methods *)

Inductive pyval : Type :=
| PyNone
| PyBool (b : bool)
| PyInt (z : Z)
| PyFloat (mantissa exponent : Z)
| PyStr (s : string)
| PyList (l : list pyval)
| PyTuple (l : list pyval).

(** [type(v) is int]: exact type test, so [True]/[False] are not ints. *)
Definition type_is_int (v : pyval) : bool :=
  match v with PyInt _ => true | _ => false end.

(** [type(v) is list] *)
Definition type_is_list (v : pyval) : bool :=
  match v with PyList _ => true | _ => false end.

(** ** Observable operations on the CAN bus (calls into [canopen]) *)

Inductive Event : Type :=
| EvConnect (bustype channel : string) (bitrate : Z)
| EvCheck
| EvSearch
| EvNmtState (id : Z) (s : string)
| EvStopGuarding (id : Z)
| EvSyncStop
| EvDisconnect
| EvSetState (id : Z) (s : string)
| EvGetState (id : Z).

(** ** Exceptions, one constructor per [raise] site *)

Inductive exn : Type :=
| TypeError_only_integers
  (* TypeError("Only integers are allowed for node ID") *)
| Exc_not_in_range (id : Z)
  (* Exception("Node ID {} is not in the range [0,127]") *)
| Exc_not_on_bus (id : Z) (found : list Z)
  (* Exception("Node ID {} is not available in {}") *)
| Exc_node_ids_not_list
  (* Exception("[enableOperation] node_ids should be a list ...") *)
| Exc_not_int (v : pyval)
  (* Exception("[enableOperation] Node ID {} is not int") *)
| Exc_not_available (id : Z)
  (* Exception("Node ID {} is not available. Skipping operation enabling.") *)
| Exc_timeout (id : Z)
  (* Exception('Timeout when trying to change state of node ID {}') *)
| KeyError (id : Z)
  (* self._network[id] on an absent key *)
| LibError (op : Event).
  (* whatever the canopen library raises from [op] *)

Inductive LogMsg : Type :=
| Log_available_nodes (found : list Z)
| Log_only_integers
| Log_not_in_range (id : Z)
| Log_not_on_bus (id : Z) (found : list Z)
| Log_exception (e : exn)
| Log_traceback (e : exn)
| Log_going_to_exit.

(** ** The network object and the world around it *)

(** A node object held by the network.  [nmt_state] is [node.nmt.state],
    [node_guarding] tells whether the guarding thread runs, [op_state] is
    the DS402 state the node object saw at its last read of [node.state]
    and [state_reads] counts those reads. *)
Record Node : Type := mkNode {
  nmt_state : string;
  node_guarding : bool;
  op_state : string;
  state_reads : nat
}.

Record World : Type := mkWorld {
  bus_connected : bool;          (* network.bus is not None *)
  scanner_nodes : list Z;        (* network.scanner.nodes *)
  nodes : list (Z * Node);       (* network.nodes, in insertion order *)
  sync_running : bool;           (* periodic SYNC producer *)
  ticks : nat;                   (* calls of time.time() so far *)
  slept : Z;                     (* total time.sleep, in microseconds *)
  trace : list Event;            (* bus operations, oldest first *)
  log : list LogMsg              (* log lines, oldest first *)
}.

(** What the library, the devices and the clock do.  [fails connected ev]
    tells whether the library raises from the call [ev] made while the bus
    is connected or not (canopen raises "Not connected to CAN bus" from a
    call that sends a frame on a bus that is not connected).  Times are in
    microseconds. *)
Record Env : Type := mkEnv {
  fails : bool -> Event -> bool;
  scan_result : list Z;
  dev_state : Z -> nat -> string;
  clock : nat -> Z
}.

Record Config : Type := mkConfig {
  channel : string;
  bustype : string;
  bitrate : Z;
  node_ids : option (list pyval);
  debug : bool
}.

Definition PRE_OPERATIONAL : string := "PRE-OPERATIONAL".
Definition OPERATION_ENABLED : string := "OPERATION ENABLED".
Arguments PRE_OPERATIONAL : simpl never.
Arguments OPERATION_ENABLED : simpl never.

(** ** The monad: state plus Python exceptions *)

Inductive Res (A : Type) : Type :=
| Ok (a : A)
| Raise (e : exn).
Arguments Ok {A} a.
Arguments Raise {A} e.

Definition M (A : Type) : Type := World -> Res A * World.

Definition ret {A} (a : A) : M A := fun w => (Ok a, w).
Definition raise {A} (e : exn) : M A := fun w => (Raise e, w).
Definition bind {A B} (m : M A) (k : A -> M B) : M B :=
  fun w => match m w with
           | (Ok a, w') => k a w'
           | (Raise e, w') => (Raise e, w')
           end.
Definition get : M World := fun w => (Ok w, w).
Definition modify (f : World -> World) : M unit := fun w => (Ok tt, f w).

Declare Scope py_scope.
Delimit Scope py_scope with py.
Notation "x <- m ;; k" := (bind m (fun x => k))
  (at level 61, m at next level, right associativity) : py_scope.
Notation "m ;; k" := (bind m (fun _ => k))
  (at level 61, right associativity) : py_scope.
Local Open Scope py_scope.

(** Computations that contain the polling loop may run out of fuel. *)
Definition P (A : Type) : Type := World -> option (Res A * World).

Definition lift {A} (m : M A) : P A := fun w => Some (m w).
Definition bindP {A B} (m : P A) (k : A -> P B) : P B :=
  fun w => match m w with
           | Some (Ok a, w') => k a w'
           | Some (Raise e, w') => Some (Raise e, w')
           | None => None
           end.

Notation "x <~ m ;; k" := (bindP m (fun x => k))
  (at level 61, m at next level, right associativity) : py_scope.
Notation "m ~> k" := (bindP m (fun _ => k))
  (at level 61, right associativity) : py_scope.

(** How an iteration of a [for] body ends: it falls through to the next
    element, or it executes [return]. *)
Inductive ctl : Type := Next | Return.

Fixpoint for_each {K} (body : K -> M ctl) (l : list K) : M ctl :=
  match l with
  | [] => ret Next
  | k :: rest =>
      c <- body k ;;
      match c with
      | Next => for_each body rest
      | Return => ret Return
      end
  end.

(** ** Field updates *)

Definition set_bus_connected (b : bool) (w : World) : World :=
  mkWorld b (scanner_nodes w) (nodes w) (sync_running w)
          (ticks w) (slept w) (trace w) (log w).
Definition set_scanner_nodes (l : list Z) (w : World) : World :=
  mkWorld (bus_connected w) l (nodes w) (sync_running w)
          (ticks w) (slept w) (trace w) (log w).
Definition set_nodes (l : list (Z * Node)) (w : World) : World :=
  mkWorld (bus_connected w) (scanner_nodes w) l (sync_running w)
          (ticks w) (slept w) (trace w) (log w).
Definition set_sync_running (b : bool) (w : World) : World :=
  mkWorld (bus_connected w) (scanner_nodes w) (nodes w) b
          (ticks w) (slept w) (trace w) (log w).
Definition set_ticks (n : nat) (w : World) : World :=
  mkWorld (bus_connected w) (scanner_nodes w) (nodes w) (sync_running w)
          n (slept w) (trace w) (log w).
Definition set_slept (z : Z) (w : World) : World :=
  mkWorld (bus_connected w) (scanner_nodes w) (nodes w) (sync_running w)
          (ticks w) z (trace w) (log w).
Definition add_event (e : Event) (w : World) : World :=
  mkWorld (bus_connected w) (scanner_nodes w) (nodes w) (sync_running w)
          (ticks w) (slept w) (trace w ++ [e]) (log w).
Definition add_log (m : LogMsg) (w : World) : World :=
  mkWorld (bus_connected w) (scanner_nodes w) (nodes w) (sync_running w)
          (ticks w) (slept w) (trace w) (log w ++ [m]).

Definition set_nmt_state (s : string) (n : Node) : Node :=
  mkNode s (node_guarding n) (op_state n) (state_reads n).
Definition set_node_guarding (b : bool) (n : Node) : Node :=
  mkNode (nmt_state n) b (op_state n) (state_reads n).
Definition observe_state (s : string) (n : Node) : Node :=
  mkNode (nmt_state n) (node_guarding n) s (S (state_reads n)).

(** The dict [network.nodes] as an association list. *)
Fixpoint lookup (id : Z) (l : list (Z * Node)) : option Node :=
  match l with
  | [] => None
  | (k, n) :: rest => if Z.eqb id k then Some n else lookup id rest
  end.

Fixpoint update (id : Z) (f : Node -> Node) (l : list (Z * Node))
  : list (Z * Node) :=
  match l with
  | [] => []
  | (k, n) :: rest =>
      if Z.eqb id k then (k, f n) :: rest else (k, n) :: update id f rest
  end.

(** ** The library calls the controller makes *)

Section Controller.

Variable env : Env.

(** A call into the library: it shows on the bus trace and raises when the
    environment says so, for the connection state the call is made in. *)
Definition lib_call (ev : Event) : M unit := fun w =>
  if fails env (bus_connected w) ev then (Raise (LibError ev), add_event ev w)
  else (Ok tt, add_event ev w).

Definition logging (m : LogMsg) : M unit := modify (add_log m).

(** [time.time()], in microseconds *)
Definition time_time : M Z := fun w =>
  (Ok (clock env (ticks w)), set_ticks (S (ticks w)) w).

(** [time.sleep(us)] *)
Definition time_sleep (us : Z) : M unit :=
  modify (fun w => set_slept (slept w + us) w).

Definition Network_connect (cfg : Config) : M unit :=
  lib_call (EvConnect (bustype cfg) (channel cfg) (bitrate cfg)) ;;
  modify (set_bus_connected true).

Definition Network_check : M unit := lib_call EvCheck.

Definition Scanner_search : M unit :=
  lib_call EvSearch ;;
  modify (set_scanner_nodes (scan_result env)).

Definition Network_disconnect : M unit :=
  lib_call EvDisconnect ;;
  modify (set_bus_connected false).

Definition Sync_stop : M unit :=
  lib_call EvSyncStop ;;
  modify (set_sync_running false).

(** [bool(network)]: a mapping is true when it has an entry. *)
Definition Network_bool (w : World) : bool :=
  match nodes w with [] => false | _ => true end.

(** [iter(network)]: the node ids, in insertion order. *)
Definition Network_iter (w : World) : list Z := map fst (nodes w).

(** [id in network] *)
Definition Network_contains (id : Z) (w : World) : bool :=
  match lookup id (nodes w) with Some _ => true | None => false end.

(** [network[id]]; the node object is referred to by its id. *)
Definition Network_getitem (id : Z) : M Z := fun w =>
  match lookup id (nodes w) with
  | Some _ => (Ok id, w)
  | None => (Raise (KeyError id), w)
  end.

Definition update_node (id : Z) (f : Node -> Node) : M unit :=
  modify (fun w => set_nodes (update id f (nodes w)) w).

(** [node.nmt.state = s]: canopen records the commanded state in the node
    object first and sends the NMT frame after that, so the record is made
    also when the send raises. *)
Definition Nmt_set_state (node : Z) (s : string) : M unit :=
  update_node node (set_nmt_state s) ;;
  lib_call (EvNmtState node s).

(** [node.nmt.stop_node_guarding()] *)
Definition Nmt_stop_node_guarding (node : Z) : M unit :=
  lib_call (EvStopGuarding node) ;;
  update_node node (set_node_guarding false).

(** [node.state = s] *)
Definition Node_set_state (node : Z) (s : string) : M unit :=
  lib_call (EvSetState node s).

(** [node.state] *)
Definition Node_get_state (node : Z) : M string :=
  lib_call (EvGetState node) ;;
  w <- get ;;
  match lookup node (nodes w) with
  | None => raise (KeyError node)
  | Some n =>
      let s := dev_state env node (state_reads n) in
      update_node node (observe_state s) ;;
      ret s
  end.

(** ** MotorController *)

(** [canopen.Network()] *)
Definition Network_new : World :=
  mkWorld false [] [] false 0%nat 0 [] [].

(** [id in self._network.scanner.nodes] *)
Definition on_bus (id : Z) (found : list Z) : bool :=
  existsb (Z.eqb id) found.

(** Lines 75-86: the checks on one expected id. *)
Definition check_expected (id : pyval) : M unit :=
  match id with
  | PyInt z =>
      (if (z <? 0) || (z >? 127) then
         logging (Log_not_in_range z) ;;
         raise (Exc_not_in_range z)
       else ret tt) ;;
      w <- get ;;
      if negb (on_bus z (scanner_nodes w)) then
        logging (Log_not_on_bus z (scanner_nodes w)) ;;
        raise (Exc_not_on_bus z (scanner_nodes w))
      else ret tt
  | _ =>
      logging Log_only_integers ;;
      raise TypeError_only_integers
  end.

Fixpoint check_all_expected (ids : list pyval) : M unit :=
  match ids with
  | [] => ret tt
  | id :: rest => check_expected id ;; check_all_expected rest
  end.

(** Lines 64-86: the body of the [try]. *)
Definition init_try (cfg : Config) : M unit :=
  Network_connect cfg ;;
  Network_check ;;
  Scanner_search ;;
  time_sleep 50000 ;;
  w <- get ;;
  logging (Log_available_nodes (scanner_nodes w)) ;;
  match node_ids cfg with
  | Some ids => check_all_expected ids
  | None => ret tt
  end.

(** Lines 97-103: the body of the teardown loop. *)
Definition init_finally_body (node_id : Z) : M ctl :=
  node <- Network_getitem node_id ;;
  Nmt_set_state node PRE_OPERATIONAL ;;
  Nmt_stop_node_guarding node ;;
  Sync_stop ;;
  Network_disconnect ;;
  ret Return.

(** Lines 93-103: the [finally] block. *)
Definition init_finally : M unit :=
  logging Log_going_to_exit ;;
  w <- get ;;
  if Network_bool w then
    for_each init_finally_body (Network_iter w) ;;
    ret tt
  else ret tt.

(** Lines 88-92: the [except Exception] handler. *)
Definition init_except (e : exn) : M unit :=
  logging (Log_exception e) ;;
  logging (Log_traceback e).

(** [MotorController.__init__]: the result is what the caller of the
    constructor sees, the network is the one the new object owns. *)
Definition __init__ (cfg : Config) : Res unit * World :=
  let w1 :=
    match init_try cfg Network_new with
    | (Ok _, w) => w
    | (Raise e, w) => snd (init_except e w)
    end in
  init_finally w1.

(** Lines 113-119: the body of the teardown loop. *)
Definition disconnectNetwork_body (node_id : Z) : M ctl :=
  node <- Network_getitem node_id ;;
  Nmt_set_state node PRE_OPERATIONAL ;;
  Nmt_stop_node_guarding node ;;
  Sync_stop ;;
  Network_disconnect ;;
  ret Return.

(** Lines 107-119 *)
Definition disconnectNetwork : M unit :=
  logging Log_going_to_exit ;;
  w <- get ;;
  if Network_bool w then
    for_each disconnectNetwork_body (Network_iter w) ;;
    ret tt
  else ret tt.

(** Lines 121-133: the type check, then nothing. *)
Definition setNMTPreOperation (node_ids : pyval) : M unit :=
  if negb (type_is_list node_ids) then raise Exc_node_ids_not_list
  else ret tt.

(** Lines 158-160: the polling loop. *)
Fixpoint wait_enabled (fuel : nat) (id node : Z) (timeout : Z) : P unit :=
  fun w =>
  match fuel with
  | O => None
  | S fuel' =>
      match Node_get_state node w with
      | (Raise e, w1) => Some (Raise e, w1)
      | (Ok s, w1) =>
          if negb (String.eqb s OPERATION_ENABLED) then
            match time_time w1 with
            | (Raise e, w2) => Some (Raise e, w2)
            | (Ok now, w2) =>
                if now >? timeout then Some (Raise (Exc_timeout id), w2)
                else wait_enabled fuel' id node timeout w2
            end
          else Some (Ok tt, w1)
      end
  end.

(** Lines 148-161: the body of the [for] loop. *)
Definition enableOperation_body (fuel : nat) (id : pyval) : P unit :=
  match id with
  | PyInt z =>
      lift (w <- get ;;
            if negb (Network_contains z w)
            then raise (Exc_not_available z) else ret tt) ~>
      node <~ lift (Network_getitem z) ;;
      now <~ lift time_time ;;
      let timeout := now + 15000000 in
      lift (Node_set_state node OPERATION_ENABLED) ~>
      wait_enabled fuel z node timeout ~>
      lift (time_sleep 1000)
  | _ => lift (raise (Exc_not_int id))
  end.

Fixpoint enableOperation_loop (fuel : nat) (ids : list pyval) : P unit :=
  match ids with
  | [] => lift (ret tt)
  | id :: rest => enableOperation_body fuel id ~> enableOperation_loop fuel rest
  end.

(** Lines 135-161; [fuel] bounds the number of polls of each [while]
    loop. *)
Definition enableOperation (fuel : nat) (node_ids : pyval) : P unit :=
  match node_ids with
  | PyList ids => enableOperation_loop fuel ids
  | _ => lift (raise Exc_node_ids_not_list)
  end.

(** Lines 163-238: the accessors, whose body is [pass]. *)
Definition getOperationStatus (node_id : pyval) : M pyval := ret PyNone.
Definition getNMTStatus (node_id : pyval) : M pyval := ret PyNone.
Definition getVelocity (node_id : pyval) : M pyval := ret PyNone.
Definition getEncoder (node_id : pyval) : M pyval := ret PyNone.
Definition setTargetVelocity (node_id : pyval) (vel : pyval) : M pyval :=
  ret PyNone.

End Controller.

(** ** The error taxonomy of the specification

    The specification names kinds of failure; the code raises plain
    [Exception]s (and one [TypeError]) told apart by their message.  This
    is the reading of each raise site as a kind of the taxonomy. *)

Inductive ErrorKind : Type :=
| InvalidNodeId
| NodeNotFound
| UnknownNode
| StateTransitionTimeout
| TransportError
| InvalidArgument.

Definition spec_kind (e : exn) : ErrorKind :=
  match e with
  | TypeError_only_integers => InvalidNodeId
  | Exc_not_in_range _ => InvalidNodeId
  | Exc_not_on_bus _ _ => NodeNotFound
  | Exc_node_ids_not_list => InvalidArgument
  | Exc_not_int _ => InvalidNodeId
  | Exc_not_available _ => UnknownNode
  | Exc_timeout _ => StateTransitionTimeout
  | KeyError _ => UnknownNode
  | LibError _ => TransportError
  end.

(** ** Sample sessions used by the examples *)

(** The calls that put a frame on the bus. *)
Definition sends_frame (ev : Event) : bool :=
  match ev with
  | EvSearch | EvNmtState _ _ | EvSetState _ _ => true
  | _ => false
  end.

(** A library that raises from the calls [broken], and from every call
    that sends a frame while the bus is not connected. *)
Definition canopen_fails (broken : Event -> bool)
  (connected : bool) (ev : Event) : bool :=
  (negb connected && sends_frame ev) || broken ev.

Definition quiet_env : Env :=
  mkEnv (canopen_fails (fun _ => false)) [2; 3]
        (fun _ _ => "SWITCH ON DISABLED")
        (fun k => Z.of_nat k * 1000).

Definition idle_node : Node := mkNode "OPERATIONAL" true "SWITCH ON DISABLED" 0.

Definition session (ns : list (Z * Node)) : World :=
  mkWorld true (map fst ns) ns true 0%nat 0 [] [].

Definition three_nodes : list (Z * Node) :=
  [(1, idle_node); (2, idle_node); (3, idle_node)].

(** The world the constructor has built when connect, check and search
    went through: what [init_try] hands to the checks of the expected
    ids. *)
Definition scanned (env : Env) (cfg : Config) : World :=
  mkWorld true (scan_result env) [] false 0%nat 50000
          [EvConnect (bustype cfg) (channel cfg) (bitrate cfg);
           EvCheck; EvSearch]
          [Log_available_nodes (scan_result env)].

(** An expected id passes the checks of the constructor. *)
Definition valid_expected (found : list Z) (v : pyval) : Prop :=
  exists z, v = PyInt z /\ 0 <= z <= 127 /\ In z found.

(** The library calls of the teardown block. *)
Definition teardown_event (ev : Event) : bool :=
  match ev with
  | EvNmtState _ _ | EvStopGuarding _ | EvSyncStop | EvDisconnect => true
  | _ => false
  end.

Definition can0 (expected : option (list pyval)) : Config :=
  mkConfig "can0" "socketcan" 250000 expected false.

(** The NMT write to node [bad] fails, every other call goes through. *)
Definition nmt_write_fails_on (bad : Z) : Env :=
  mkEnv (canopen_fails (fun ev => match ev with
                                  | EvNmtState id _ => Z.eqb id bad
                                  | _ => false
                                  end))
        [1; 2; 3] (fun _ _ => "SWITCH ON DISABLED")
        (fun k => Z.of_nat k * 1000).

(** Nodes that never leave SWITCH ON DISABLED, and a clock read at 0 s,
    at 14.9995 s and from then on at 15.002 s. *)
Definition stuck_env : Env :=
  mkEnv (canopen_fails (fun _ => false)) [1; 2; 3] (fun _ _ => "SWITCH ON DISABLED")
        (fun k => match k with
                  | O => 0
                  | S O => 14999500
                  | _ => 15002000
                  end).

(** Nodes that report OPERATION ENABLED at once. *)
Definition ready_env : Env :=
  mkEnv (canopen_fails (fun _ => false)) [1; 2; 3] (fun _ _ => OPERATION_ENABLED)
        (fun k => Z.of_nat k * 1000).

(** The three library calls of the constructor, in the order it makes
    them. *)
Definition init_calls (cfg : Config) : list Event :=
  [EvConnect (bustype cfg) (channel cfg) (bitrate cfg); EvCheck; EvSearch].

(** The four library calls of the teardown loop body on node [id], in the
    order it makes them. *)
Definition teardown_calls (id : Z) : list Event :=
  [EvNmtState id PRE_OPERATIONAL; EvStopGuarding id; EvSyncStop; EvDisconnect].

(** The library calls [enableOperation] makes: writes and reads of
    [node.state]. *)
Definition state_event (ev : Event) : bool :=
  match ev with
  | EvSetState _ _ | EvGetState _ => true
  | _ => false
  end.

(** The error [enableOperation] has for a value that is not a node of the
    registry. *)
Definition rejection (v : pyval) : exn :=
  match v with
  | PyInt z => Exc_not_available z
  | _ => Exc_not_int v
  end.

(** What [enableOperation] leaves alone: connection, scanner, sync
    producer, log, the keys of the registry and the NMT side of every node;
    the bus trace only grows, by reads and writes of [node.state]. *)
Definition enable_frame (w w' : World) : Prop :=
  bus_connected w' = bus_connected w /\
  scanner_nodes w' = scanner_nodes w /\
  sync_running w' = sync_running w /\
  log w' = log w /\
  map fst (nodes w') = map fst (nodes w) /\
  (forall i, option_map nmt_state (lookup i (nodes w'))
             = option_map nmt_state (lookup i (nodes w))) /\
  (forall i, option_map node_guarding (lookup i (nodes w'))
             = option_map node_guarding (lookup i (nodes w))) /\
  exists evs, trace w' = trace w ++ evs /\ forallb state_event evs = true.

(** The node object [id] of the registry last read OPERATION ENABLED. *)
Definition enabled_in (id : Z) (w : World) : Prop :=
  exists n, lookup id (nodes w) = Some n /\ op_state n = OPERATION_ENABLED.

(** Nodes that never leave SWITCH ON DISABLED and a clock that stands
    still. *)
Definition frozen_env : Env :=
  mkEnv (canopen_fails (fun _ => false)) [1; 2; 3] (fun _ _ => "SWITCH ON DISABLED")
        (fun _ => 0).

(** A node that reports OPERATION ENABLED from its third read on. *)
(** The write of [node.state] raises, as canopen's does when the node does
    not get to the requested state within the library's own timeout. *)
Definition write_fails_env : Env :=
  mkEnv (canopen_fails (fun ev => match ev with
                                  | EvSetState _ _ => true
                                  | _ => false
                                  end))
        [1; 2; 3] (fun _ _ => "SWITCH ON DISABLED")
        (fun k => Z.of_nat k * 1000).

Definition slow_env : Env :=
  mkEnv (canopen_fails (fun _ => false)) [1; 2; 3]
        (fun _ k => if (k <? 2)%nat then "SWITCHED ON" else OPERATION_ENABLED)
        (fun k => Z.of_nat k * 1000).

(** ** Tactics *)

(** Unfolds the monad. *)
Ltac run := unfold bind, logging, modify, get, ret, raise; simpl.

(** Closes an equation between two worlds once the registry is known. *)
Ltac settle :=
  repeat (progress (rewrite ?Z.eqb_refl; simpl));
  repeat match goal with
         | H : nodes _ = _ |- _ =>
             progress (rewrite ?H; simpl; rewrite ?Z.eqb_refl; simpl)
         end;
  reflexivity.

(** * Properties *)

(** ** Basic facts about the registry *)

Lemma lookup_update_same id f l :
  lookup id (update id f l) = option_map f (lookup id l).
Proof.
  induction l as [|[k n] rest IH]; simpl; [reflexivity|].
  destruct (Z.eqb id k) eqn:E; simpl; rewrite E; [reflexivity|exact IH].
Qed.

(** ** setNMTPreOperation *)

(** C9: on every list, whatever it holds, [setNMTPreOperation] returns
    normally and leaves the whole world (bus trace, registry, connection,
    log) as it was; on every value that is not a list it raises, and also
    leaves the world as it was. *)
Theorem setNMTPreOperation_only_checks_list (v : pyval) (w : World) :
  setNMTPreOperation v w =
    (if type_is_list v then Ok tt else Raise Exc_node_ids_not_list, w).
Proof.
  unfold setNMTPreOperation. destruct (type_is_list v); reflexivity.
Qed.

Example setNMTPreOperation_bogus_list :
  setNMTPreOperation (PyList [PyStr "x"; PyInt 4000; PyInt 99; PyNone])
                     (session three_nodes)
  = (Ok tt, session three_nodes).
Proof. reflexivity. Qed.

Example setNMTPreOperation_tuple :
  setNMTPreOperation (PyTuple [PyInt 1]) (session three_nodes)
  = (Raise Exc_node_ids_not_list, session three_nodes).
Proof. reflexivity. Qed.

(** ** disconnectNetwork *)

(** The [finally] block of the constructor is the same computation as
    [disconnectNetwork]. *)
Lemma init_finally_is_disconnectNetwork env w :
  init_finally env w = disconnectNetwork env w.
Proof. reflexivity. Qed.

(** C10: with an empty registry [disconnectNetwork] returns normally after
    its log line: nothing is sent on the bus, transport disconnect is not
    called and the connection state stays what it was. *)
Theorem disconnectNetwork_empty_registry env (w : World) :
  nodes w = [] ->
  disconnectNetwork env w = (Ok tt, add_log Log_going_to_exit w) /\
  trace (snd (disconnectNetwork env w)) = trace w /\
  bus_connected (snd (disconnectNetwork env w)) = bus_connected w /\
  sync_running (snd (disconnectNetwork env w)) = sync_running w.
Proof.
  intros Hn.
  assert (E : disconnectNetwork env w = (Ok tt, add_log Log_going_to_exit w)).
  { unfold disconnectNetwork, bind, logging, modify, get, Network_bool.
    simpl. rewrite Hn. reflexivity. }
  rewrite E. simpl. auto.
Qed.

Lemma disconnectNetwork_empty_registry_witness :
  disconnectNetwork quiet_env (session []) =
    (Ok tt, add_log Log_going_to_exit (session [])) /\
  bus_connected (snd (disconnectNetwork quiet_env (session []))) = true.
Proof.
  destruct (disconnectNetwork_empty_registry quiet_env (session []) eq_refl)
    as (E & _ & C & _).
  split; [exact E | exact C].
Defined.

(** ** The unimplemented accessors *)

(** C6, against the claim: the five accessors whose body is [pass] return
    [None] on a node id that is not an integer or lies outside [0,127],
    with no check at all, and [enableOperation] answers an out-of-range
    integer with the not-available error, not with a range error. *)
Lemma stubs_accept_invalid_node_id :
  let w := session three_nodes in
  getEncoder (PyInt 200) w = (Ok PyNone, w) /\
  getVelocity (PyInt (-1)) w = (Ok PyNone, w) /\
  getNMTStatus (PyStr "x") w = (Ok PyNone, w) /\
  getOperationStatus (PyFloat 3 (-1)) w = (Ok PyNone, w) /\
  setTargetVelocity (PyInt 128) (PyFloat 3 (-1)) w = (Ok PyNone, w) /\
  enableOperation quiet_env 1 (PyList [PyInt 200]) w
    = Some (Raise (Exc_not_available 200), w) /\
  spec_kind (Exc_not_available 200) <> InvalidNodeId.
Proof.
  cbv zeta. repeat split; try reflexivity. discriminate.
Qed.

(** C7, where the code departs from the claim: on a node id that is not in
    the registry the four telemetry accessors return [None] and raise
    nothing, and the world is as it was. *)
Theorem telemetry_stubs_ignore_unknown_node (id : Z) (w : World) :
  lookup id (nodes w) = None ->
  getEncoder (PyInt id) w = (Ok PyNone, w) /\
  getVelocity (PyInt id) w = (Ok PyNone, w) /\
  getNMTStatus (PyInt id) w = (Ok PyNone, w) /\
  getOperationStatus (PyInt id) w = (Ok PyNone, w).
Proof. intros _. repeat split. Qed.

Lemma telemetry_stubs_ignore_unknown_node_witness :
  lookup 99 (nodes (session three_nodes)) = None /\
  getEncoder (PyInt 99) (session three_nodes)
    = (Ok PyNone, session three_nodes).
Proof.
  split; [reflexivity|].
  exact (proj1 (telemetry_stubs_ignore_unknown_node 99 (session three_nodes)
                  eq_refl)).
Defined.

(** ** The constructor *)

Lemma on_bus_In z found : on_bus z found = true <-> In z found.
Proof.
  unfold on_bus. rewrite existsb_exists. split.
  - intros (x & Hin & E). apply Z.eqb_eq in E. now subst.
  - intros Hin. exists z. split; [assumption|apply Z.eqb_refl].
Qed.

(** The checks on one expected id, branch by branch. *)
Lemma check_expected_eq v w :
  check_expected v w =
    match v with
    | PyInt z =>
        if (z <? 0) || (z >? 127)
        then (Raise (Exc_not_in_range z), add_log (Log_not_in_range z) w)
        else if on_bus z (scanner_nodes w) then (Ok tt, w)
        else (Raise (Exc_not_on_bus z (scanner_nodes w)),
              add_log (Log_not_on_bus z (scanner_nodes w)) w)
    | _ => (Raise TypeError_only_integers, add_log Log_only_integers w)
    end.
Proof.
  destruct v; try reflexivity.
  unfold check_expected. run.
  destruct ((z <? 0) || (z >? 127)); simpl; [reflexivity|].
  destruct (on_bus z (scanner_nodes w)); reflexivity.
Qed.

Lemma check_expected_valid v w :
  valid_expected (scanner_nodes w) v -> check_expected v w = (Ok tt, w).
Proof.
  intros (z & -> & Hr & Hin). rewrite check_expected_eq.
  replace ((z <? 0) || (z >? 127)) with false
    by (symmetry; rewrite Z.gtb_ltb; apply orb_false_iff; split;
        apply Z.ltb_ge; lia).
  apply on_bus_In in Hin. now rewrite Hin.
Qed.

Lemma check_expected_frame v w :
  nodes (snd (check_expected v w)) = nodes w /\
  trace (snd (check_expected v w)) = trace w /\
  bus_connected (snd (check_expected v w)) = bus_connected w.
Proof.
  rewrite check_expected_eq. destruct v; simpl; auto.
  destruct ((z <? 0) || (z >? 127)); simpl; auto.
  destruct (on_bus z (scanner_nodes w)); simpl; auto.
Qed.

Lemma check_all_expected_cons v rest w :
  check_all_expected (v :: rest) w =
    match check_expected v w with
    | (Ok _, w') => check_all_expected rest w'
    | (Raise e, w') => (Raise e, w')
    end.
Proof. reflexivity. Qed.

Lemma check_all_expected_frame ids : forall w,
  nodes (snd (check_all_expected ids w)) = nodes w /\
  trace (snd (check_all_expected ids w)) = trace w /\
  bus_connected (snd (check_all_expected ids w)) = bus_connected w.
Proof.
  induction ids as [|v rest IH]; intros w; [simpl; auto|].
  rewrite check_all_expected_cons.
  pose proof (check_expected_frame v w) as (Hn & Ht & Hb).
  destruct (check_expected v w) as [[u|e] w']; simpl in *.
  - destruct (IH w') as (Hn' & Ht' & Hb'). repeat split; congruence.
  - auto.
Qed.

Lemma check_all_expected_valid ids w :
  Forall (valid_expected (scanner_nodes w)) ids ->
  check_all_expected ids w = (Ok tt, w).
Proof.
  induction 1 as [|v rest Hv _ IH]; [reflexivity|].
  rewrite check_all_expected_cons, (check_expected_valid _ _ Hv). exact IH.
Qed.

Lemma check_expected_ok v w :
  fst (check_expected v w) = Ok tt ->
  valid_expected (scanner_nodes w) v /\ snd (check_expected v w) = w.
Proof.
  rewrite check_expected_eq. destruct v; simpl; try discriminate.
  destruct ((z <? 0) || (z >? 127)) eqn:Er; simpl; [discriminate|].
  destruct (on_bus z (scanner_nodes w)) eqn:Eb; simpl; [|discriminate].
  intros _. split; [|reflexivity].
  apply orb_false_iff in Er. rewrite Z.gtb_ltb, !Z.ltb_ge in Er.
  apply on_bus_In in Eb. exists z. repeat split; auto; lia.
Qed.

Lemma check_all_expected_ok ids w :
  fst (check_all_expected ids w) = Ok tt ->
  Forall (valid_expected (scanner_nodes w)) ids.
Proof.
  induction ids as [|v rest IH]; [constructor|].
  rewrite check_all_expected_cons.
  pose proof (check_expected_ok v w) as Hv.
  destruct (check_expected v w) as [[[]|e] w']; simpl in *; [|discriminate].
  destruct (Hv eq_refl) as (Hval & ->). intros Hok.
  constructor; [exact Hval|now apply IH].
Qed.

(** The first id that does not pass decides the outcome. *)
Lemma check_all_expected_first_invalid pre v post w :
  Forall (valid_expected (scanner_nodes w)) pre ->
  ~ valid_expected (scanner_nodes w) v ->
  check_all_expected (pre ++ v :: post) w = check_expected v w /\
  exists e, fst (check_expected v w) = Raise e.
Proof.
  intros Hpre Hv.
  assert (Hr : exists e, fst (check_expected v w) = Raise e).
  { rewrite check_expected_eq. destruct v; simpl; eauto.
    destruct ((z <? 0) || (z >? 127)) eqn:Er; simpl; eauto.
    destruct (on_bus z (scanner_nodes w)) eqn:Eb; simpl; eauto.
    exfalso. apply Hv. exists z. apply orb_false_iff in Er as [E1 E2].
    apply Z.ltb_ge in E1. rewrite Z.gtb_ltb in E2. apply Z.ltb_ge in E2.
    apply on_bus_In in Eb. repeat split; auto; lia. }
  split; [|exact Hr].
  induction Hpre as [|u pre Hu _ IH]; simpl app.
  - rewrite check_all_expected_cons. destruct Hr as (e & He).
    destruct (check_expected v w) as [[?|?] ?]; simpl in He;
      [discriminate|reflexivity].
  - rewrite check_all_expected_cons, (check_expected_valid _ _ Hu). exact IH.
Qed.

Lemma init_try_scanned env cfg :
  fails env false (EvConnect (bustype cfg) (channel cfg) (bitrate cfg)) = false ->
  fails env true EvCheck = false ->
  fails env true EvSearch = false ->
  init_try env cfg Network_new =
    match node_ids cfg with
    | Some ids => check_all_expected ids (scanned env cfg)
    | None => (Ok tt, scanned env cfg)
    end.
Proof.
  intros H1 H2 H3.
  unfold init_try, Network_connect, Network_check, Scanner_search,
    time_sleep, lib_call.
  run. rewrite H1. simpl. rewrite H2. simpl. rewrite H3. simpl.
  destruct (node_ids cfg); reflexivity.
Qed.

(** The constructor never puts a node into the registry. *)
Lemma init_try_registry env cfg :
  nodes (snd (init_try env cfg Network_new)) = [].
Proof.
  unfold init_try, Network_connect, Network_check, Scanner_search,
    time_sleep, lib_call.
  run.
  destruct (fails env false (EvConnect _ _ _)); simpl; [reflexivity|].
  destruct (fails env true EvCheck); simpl; [reflexivity|].
  destruct (fails env true EvSearch); simpl; [reflexivity|].
  destruct (node_ids cfg) as [ids|]; [|reflexivity].
  match goal with |- nodes (snd (check_all_expected ids ?w)) = _ =>
    now destruct (check_all_expected_frame ids w) as (-> & _) end.
Qed.

Lemma teardown_empty env w :
  nodes w = [] ->
  disconnectNetwork env w = (Ok tt, add_log Log_going_to_exit w).
Proof.
  intros Hn. unfold disconnectNetwork, Network_bool. run.
  rewrite Hn. reflexivity.
Qed.

(** What the constructor amounts to: the [try], the handler when the
    [try] raised, and the log line of the [finally] block, whose loop finds
    the fresh registry empty. *)
Lemma init_eq env cfg :
  __init__ env cfg =
    match init_try env cfg Network_new with
    | (Ok _, w) => (Ok tt, add_log Log_going_to_exit w)
    | (Raise e, w) =>
        (Ok tt, add_log Log_going_to_exit
                  (add_log (Log_traceback e) (add_log (Log_exception e) w)))
    end.
Proof.
  unfold __init__. pose proof (init_try_registry env cfg) as Hn.
  destruct (init_try env cfg Network_new) as [[u|e] w]; simpl in Hn.
  - rewrite init_finally_is_disconnectNetwork. now apply teardown_empty.
  - rewrite init_finally_is_disconnectNetwork. now apply teardown_empty.
Qed.




(** C3: with a list of expected ids, and connect, check and scan gone
    through, the checks succeed exactly when every id is an integer of
    [0,127] that answered the scan; otherwise the first id that is not
    decides the error: the integers-only [TypeError] for a value that is
    not an [int], the range error for an integer outside [0,127], the
    not-available error for an integer of the range that did not answer.
    In that case nothing was put into the registry: it is empty after the
    [try] and empty when the constructor is done. *)
Theorem expected_nodes_all_or_nothing env cfg ids :
  node_ids cfg = Some ids ->
  fails env false (EvConnect (bustype cfg) (channel cfg) (bitrate cfg)) = false ->
  fails env true EvCheck = false ->
  fails env true EvSearch = false ->
  let found := scan_result env in
  let r := init_try env cfg Network_new in
  (Forall (valid_expected found) ids <-> fst r = Ok tt) /\
  (forall pre v post,
      ids = pre ++ v :: post ->
      Forall (valid_expected found) pre ->
      ~ valid_expected found v ->
      exists e,
        fst r = Raise e /\
        (type_is_int v = false ->
           e = TypeError_only_integers /\ spec_kind e = InvalidNodeId) /\
        (forall z, v = PyInt z -> z < 0 \/ 127 < z ->
           e = Exc_not_in_range z /\ spec_kind e = InvalidNodeId) /\
        (forall z, v = PyInt z -> 0 <= z <= 127 ->
           e = Exc_not_on_bus z found /\ spec_kind e = NodeNotFound) /\
        nodes (snd r) = [] /\
        nodes (snd (__init__ env cfg)) = []).
Proof.
  intros Hcfg H1 H2 H3 found r. subst r.
  rewrite (init_try_scanned env cfg H1 H2 H3), Hcfg.
  assert (Hfirst : forall pre v post,
      ids = pre ++ v :: post ->
      Forall (valid_expected found) pre ->
      ~ valid_expected found v ->
      check_all_expected ids (scanned env cfg)
        = check_expected v (scanned env cfg) /\
      exists e, fst (check_expected v (scanned env cfg)) = Raise e).
  { intros pre v post -> Hpre Hv.
    now apply check_all_expected_first_invalid. }
  split.
  - split.
    + intros Hall.
      now rewrite (check_all_expected_valid ids (scanned env cfg) Hall).
    + intros Hok. now apply (check_all_expected_ok ids (scanned env cfg)).
  - intros pre v post Eids Hpre Hv.
    destruct (Hfirst pre v post Eids Hpre Hv) as (E & e & He).
    exists e. rewrite E. split; [exact He|].
    assert (Hreg : nodes (snd (__init__ env cfg)) = []).
    { rewrite init_eq.
      pose proof (init_try_registry env cfg) as Hn.
      destruct (init_try env cfg Network_new) as [[?|?] ?]; exact Hn. }
    assert (Hempty : nodes (snd (check_expected v (scanned env cfg))) = []).
    { now destruct (check_expected_frame v (scanned env cfg)) as (-> & _). }
    split; [|split; [|split; [|split; [exact Hempty|exact Hreg]]]].
    + intros Hty. rewrite check_expected_eq in He.
      destruct v; try discriminate Hty; simpl in He; injection He as <-;
        split; reflexivity.
    + intros z -> Hz. rewrite check_expected_eq in He.
      replace ((z <? 0) || (z >? 127)) with true in He
        by (symmetry; rewrite Z.gtb_ltb; apply orb_true_iff;
            rewrite !Z.ltb_lt; lia).
      simpl in He. injection He as <-. split; reflexivity.
    + intros z -> Hz. rewrite check_expected_eq in He.
      replace ((z <? 0) || (z >? 127)) with false in He
        by (symmetry; rewrite Z.gtb_ltb; apply orb_false_iff;
            rewrite !Z.ltb_ge; lia).
      simpl in He. destruct (on_bus z (scan_result env)); simpl in He;
        [discriminate|].
      injection He as <-. split; reflexivity.
Qed.

Lemma expected_nodes_all_or_nothing_witness :
  let cfg := can0 (Some [PyInt 2; PyInt 3; PyInt 5]) in
  exists e,
    fst (init_try quiet_env cfg Network_new) = Raise e /\
    e = Exc_not_on_bus 5 [2; 3] /\
    nodes (snd (__init__ quiet_env cfg)) = [].
Proof.
  intros cfg.
  destruct (expected_nodes_all_or_nothing quiet_env cfg
              [PyInt 2; PyInt 3; PyInt 5] eq_refl eq_refl eq_refl eq_refl)
    as (_ & H).
  destruct (H [PyInt 2; PyInt 3] (PyInt 5) [] eq_refl)
    as (e & He & _ & _ & Hab & _ & Hn).
  - repeat constructor.
    + exists 2. simpl. repeat split; auto; lia.
    + exists 3. simpl. repeat split; auto; lia.
  - intros (z & E & _ & Hin). injection E as <-.
    simpl in Hin. destruct Hin as [Hin|[Hin|[]]]; discriminate.
  - exists e. split; [exact He|]. split; [|exact Hn].
    apply (Hab 5 eq_refl). lia.
Defined.

(** C8, against the claim: an expected id of 0 is not rejected as out of
    range.  It passes the range check and is turned down only because node
    0 did not answer the scan, with the not-available error. *)
Lemma node_id_zero_passes_range_check :
  let cfg := can0 (Some [PyInt 0]) in
  fst (init_try quiet_env cfg Network_new) = Raise (Exc_not_on_bus 0 [2; 3]) /\
  fst (init_try quiet_env cfg Network_new) <> Raise (Exc_not_in_range 0) /\
  ~ In (Log_not_in_range 0) (log (snd (init_try quiet_env cfg Network_new))).
Proof.
  cbv zeta. split; [reflexivity|]. split; [discriminate|].
  vm_compute. intros [H|[H|[]]]; discriminate.
Qed.

(** C8, as the code has it: the checks of the expected ids turn down
    every value that is not an [int], and turn down an integer as out of
    range exactly when it is below 0 or above 127; the range is [0,127],
    and 0 is inside it. *)
Theorem expected_id_range_is_0_to_127 (v : pyval) (w : World) :
  (type_is_int v = false ->
     fst (check_expected v w) = Raise TypeError_only_integers) /\
  (forall z, v = PyInt z ->
     (fst (check_expected v w) = Raise (Exc_not_in_range z)
      <-> z < 0 \/ 127 < z)) /\
  fst (check_expected (PyInt 0) w) <> Raise (Exc_not_in_range 0).
Proof.
  assert (Hrange : forall z,
    fst (check_expected (PyInt z) w) = Raise (Exc_not_in_range z)
    <-> z < 0 \/ 127 < z).
  { intros z. rewrite check_expected_eq.
    destruct ((z <? 0) || (z >? 127)) eqn:Er; simpl.
    - apply orb_true_iff in Er. rewrite Z.gtb_ltb, !Z.ltb_lt in Er.
      split; auto.
    - apply orb_false_iff in Er. rewrite Z.gtb_ltb, !Z.ltb_ge in Er.
      destruct (on_bus z (scanner_nodes w)); simpl;
        (split; [discriminate|lia]). }
  split; [|split].
  - intros Hty. rewrite check_expected_eq.
    destruct v; try discriminate Hty; reflexivity.
  - intros z ->. apply Hrange.
  - intros H. apply Hrange in H. lia.
Qed.

Lemma expected_id_range_is_0_to_127_witness :
  fst (check_expected (PyStr "4") (session three_nodes))
    = Raise TypeError_only_integers /\
  fst (check_expected (PyInt 128) (session three_nodes))
    = Raise (Exc_not_in_range 128).
Proof.
  split.
  - exact (proj1 (expected_id_range_is_0_to_127 (PyStr "4")
                    (session three_nodes)) eq_refl).
  - apply (proj1 (proj2 (expected_id_range_is_0_to_127 (PyInt 128)
                           (session three_nodes))) 128 eq_refl).
    right. lia.
Defined.

(** ** Teardown with nodes in the registry *)

(** The teardown block on a registry whose first node is [id], call by
    call. *)
Lemma teardown_nonempty env w id n rest :
  nodes w = (id, n) :: rest ->
  disconnectNetwork env w =
    let c := bus_connected w in
    let e1 := EvNmtState id PRE_OPERATIONAL in
    let e2 := EvStopGuarding id in
    let n1 := set_nmt_state PRE_OPERATIONAL n in
    let w1 := set_nodes ((id, n1) :: rest) (add_log Log_going_to_exit w) in
    if fails env c e1 then (Raise (LibError e1), add_event e1 w1) else
    let w2 := add_event e1 w1 in
    if fails env c e2 then (Raise (LibError e2), add_event e2 w2) else
    let w3 := set_nodes ((id, set_node_guarding false n1) :: rest)
                        (add_event e2 w2) in
    if fails env c EvSyncStop
    then (Raise (LibError EvSyncStop), add_event EvSyncStop w3) else
    let w4 := set_sync_running false (add_event EvSyncStop w3) in
    if fails env c EvDisconnect
    then (Raise (LibError EvDisconnect), add_event EvDisconnect w4)
    else (Ok tt, set_bus_connected false (add_event EvDisconnect w4)).
Proof.
  intros Hn. cbv zeta.
  destruct (fails env (bus_connected w) (EvNmtState id PRE_OPERATIONAL))
    eqn:E1;
    [|destruct (fails env (bus_connected w) (EvStopGuarding id)) eqn:E2;
      [|destruct (fails env (bus_connected w) EvSyncStop) eqn:E3;
        [|destruct (fails env (bus_connected w) EvDisconnect) eqn:E4]]];
    unfold disconnectNetwork, disconnectNetwork_body, Network_bool,
      Network_iter, Network_getitem, Nmt_set_state, Nmt_stop_node_guarding,
      Sync_stop, Network_disconnect, update_node, lib_call;
    run;
    repeat (progress (rewrite ?Hn, ?Z.eqb_refl, ?E1, ?E2, ?E3, ?E4;
                      simpl; run));
    reflexivity.
Qed.




(** ** enableOperation *)

(** One read of [node.state] on a node of the registry. *)
Lemma Node_get_state_eq env id w n :
  lookup id (nodes w) = Some n ->
  fails env (bus_connected w) (EvGetState id) = false ->
  Node_get_state env id w =
    (Ok (dev_state env id (state_reads n)),
     set_nodes (update id (observe_state (dev_state env id (state_reads n)))
                       (nodes w))
               (add_event (EvGetState id) w)).
Proof.
  intros Hl Hf. unfold Node_get_state, update_node, lib_call. run.
  rewrite Hf. simpl. rewrite Hl. reflexivity.
Qed.

(** The loop body up to the polling loop, for an integer id of the
    registry whose state request goes through. *)
Lemma enableOperation_body_eq env fuel id w n :
  lookup id (nodes w) = Some n ->
  fails env (bus_connected w) (EvSetState id OPERATION_ENABLED) = false ->
  enableOperation_body env fuel (PyInt id) w =
    match wait_enabled env fuel id id (clock env (ticks w) + 15000000)
            (add_event (EvSetState id OPERATION_ENABLED)
               (set_ticks (S (ticks w)) w)) with
    | Some (Ok _, w') => Some (Ok tt, set_slept (slept w' + 1000) w')
    | Some (Raise e, w') => Some (Raise e, w')
    | None => None
    end.
Proof.
  intros Hl Hf.
  unfold enableOperation_body, bindP, lift, Network_contains,
    Network_getitem, Node_set_state, time_time, time_sleep, lib_call.
  run. rewrite Hl. simpl. rewrite Hl. simpl. rewrite Hf. simpl.
  destruct (wait_enabled env fuel id id _ _) as [[[[]|e] w']|]; reflexivity.
Qed.

Lemma enableOperation_single env fuel v w :
  enableOperation env fuel (PyList [v]) w = enableOperation_body env fuel v w.
Proof.
  unfold enableOperation, enableOperation_loop, bindP, lift, ret.
  destruct (enableOperation_body env fuel v w) as [[[[]|e] w']|]; reflexivity.
Qed.

Lemma enableOperation_loop_app env fuel pre rest : forall w w1,
  enableOperation_loop env fuel pre w = Some (Ok tt, w1) ->
  enableOperation_loop env fuel (pre ++ rest) w
    = enableOperation_loop env fuel rest w1.
Proof.
  induction pre as [|v pre IH]; intros w w1 Hpre.
  - simpl in Hpre. unfold lift, ret in Hpre. now injection Hpre as <-.
  - simpl in Hpre |- *. unfold bindP in Hpre |- *.
    destruct (enableOperation_body env fuel v w) as [[[[]|e] w0]|];
      try discriminate.
    now apply IH.
Qed.

(** More fuel does not change a result. *)
Lemma wait_enabled_mono env id node timeout : forall fuel w r,
  wait_enabled env fuel id node timeout w = Some r ->
  forall fuel', (fuel <= fuel')%nat ->
  wait_enabled env fuel' id node timeout w = Some r.
Proof.
  induction fuel as [|fuel IH]; intros w r Hrun fuel' Hle; [discriminate|].
  destruct fuel' as [|fuel']; [lia|].
  simpl in Hrun |- *.
  destruct (Node_get_state env node w) as [[s|e] w1]; [|exact Hrun].
  destruct (negb (String.eqb s OPERATION_ENABLED)); [|exact Hrun].
  unfold time_time in Hrun |- *.
  destruct (clock env (ticks w1) >? timeout); [exact Hrun|].
  apply (IH _ _ Hrun). lia.
Qed.

Lemma enableOperation_body_mono env fuel fuel' v w r :
  enableOperation_body env fuel v w = Some r ->
  (fuel <= fuel')%nat ->
  enableOperation_body env fuel' v w = Some r.
Proof.
  intros Hrun Hle. destruct v; try exact Hrun.
  revert Hrun.
  unfold enableOperation_body, bindP, lift.
  destruct ((w0 <- get;;
             (if negb (Network_contains z w0)
              then raise (Exc_not_available z) else ret tt)) w)
    as [[[]|e] w1]; [|auto].
  destruct (Network_getitem z w1) as [[node|e] w2]; [|auto].
  destruct (time_time env w2) as [[now|e] w3]; [|auto].
  destruct (Node_set_state env node OPERATION_ENABLED w3) as [[[]|e] w4];
    [|auto].
  destruct (wait_enabled env fuel z node (now + 15000000) w4) as [r0|] eqn:Hw;
    [|discriminate].
  now rewrite (wait_enabled_mono env z node _ fuel w4 r0 Hw fuel' Hle).
Qed.

Lemma enableOperation_loop_mono env fuel fuel' ids : forall w r,
  enableOperation_loop env fuel ids w = Some r ->
  (fuel <= fuel')%nat ->
  enableOperation_loop env fuel' ids w = Some r.
Proof.
  induction ids as [|v rest IH]; intros w r Hrun Hle; [exact Hrun|].
  simpl in Hrun |- *. unfold bindP in Hrun |- *.
  destruct (enableOperation_body env fuel v w) as [r0|] eqn:Hb;
    [|discriminate].
  rewrite (enableOperation_body_mono env fuel fuel' v w r0 Hb Hle).
  destruct r0 as [[[]|e] w1]; [now apply IH|exact Hrun].
Qed.

(** The list after ids that went through. *)
Lemma enableOperation_after env f0 pre w w1 :
  enableOperation env f0 (PyList pre) w = Some (Ok tt, w1) ->
  forall fuel v post, (f0 <= fuel)%nat ->
  enableOperation env fuel (PyList (pre ++ v :: post)) w =
    match enableOperation_body env fuel v w1 with
    | Some (Ok _, w2) => enableOperation_loop env fuel post w2
    | Some (Raise e, w2) => Some (Raise e, w2)
    | None => None
    end.
Proof.
  unfold enableOperation. intros Hpre fuel v post Hle.
  rewrite (enableOperation_loop_app env fuel pre (v :: post) w w1
             (enableOperation_loop_mono env f0 fuel pre w _ Hpre Hle)).
  reflexivity.
Qed.

(** The polling loop on a node that reports OPERATION ENABLED at its
    [k]-th next read, the clock being within the timeout at the polls
    before. *)
Lemma wait_enabled_success env id timeout : forall k w n,
  lookup id (nodes w) = Some n ->
  fails env (bus_connected w) (EvGetState id) = false ->
  (forall j, (j < k)%nat ->
     dev_state env id (state_reads n + j)%nat <> OPERATION_ENABLED) ->
  dev_state env id (state_reads n + k)%nat = OPERATION_ENABLED ->
  (forall j, (j < k)%nat -> clock env (ticks w + j)%nat <= timeout) ->
  exists w',
    (forall fuel, (k < fuel)%nat ->
       wait_enabled env fuel id id timeout w = Some (Ok tt, w')) /\
    ticks w' = (ticks w + k)%nat /\
    slept w' = slept w /\
    trace w' = trace w ++ repeat (EvGetState id) (S k) /\
    exists n', lookup id (nodes w') = Some n' /\
               op_state n' = OPERATION_ENABLED /\
               state_reads n' = (state_reads n + S k)%nat.
Proof.
  induction k as [|k IH]; intros w n Hl Hget Hnot Hyes Hclock.
  - rewrite Nat.add_0_r in Hyes.
    eexists. split; [|split; [|split; [|split]]].
    + intros [|fuel] Hfuel; [lia|]. simpl wait_enabled.
      rewrite (Node_get_state_eq env id w n Hl Hget), Hyes.
      reflexivity.
    + simpl. lia.
    + reflexivity.
    + reflexivity.
    + simpl. rewrite lookup_update_same, Hl. simpl.
      eexists. split; [reflexivity|]. simpl. split; [reflexivity|lia].
  - pose proof (Hnot 0%nat ltac:(lia)) as H0. rewrite Nat.add_0_r in H0.
    apply String.eqb_neq in H0.
    pose proof (Hclock 0%nat ltac:(lia)) as Hfirst.
    rewrite Nat.add_0_r in Hfirst.
    assert (Hle : (clock env (ticks w) >? timeout) = false).
    { rewrite Z.gtb_ltb. apply Z.ltb_ge. exact Hfirst. }
    set (s := dev_state env id (state_reads n)) in *.
    set (w2 := set_ticks (S (ticks w))
                 (set_nodes (update id (observe_state s) (nodes w))
                            (add_event (EvGetState id) w))).
    destruct (IH w2 (observe_state s n))
      as (w' & Hrun & Ht & Hs & Htr & n' & Hl' & Ho & Hr).
    + simpl. now rewrite lookup_update_same, Hl.
    + exact Hget.
    + intros j Hj. simpl.
      replace (S (state_reads n + j))%nat with (state_reads n + S j)%nat
        by lia.
      apply Hnot. lia.
    + simpl.
      replace (S (state_reads n + k))%nat with (state_reads n + S k)%nat
        by lia.
      exact Hyes.
    + intros j Hj. simpl.
      replace (S (ticks w + j))%nat with (ticks w + S j)%nat by lia.
      apply Hclock. lia.
    + exists w'. split; [|split; [|split; [|split]]].
      * intros [|fuel] Hfuel; [lia|]. simpl wait_enabled.
        rewrite (Node_get_state_eq env id w n Hl Hget).
        fold s. rewrite H0. simpl. rewrite Hle.
        apply Hrun. lia.
      * rewrite Ht. simpl. lia.
      * rewrite Hs. reflexivity.
      * rewrite Htr. simpl. rewrite <- app_assoc. reflexivity.
      * exists n'. split; [exact Hl'|]. split; [exact Ho|].
        rewrite Hr. simpl. lia.
Qed.

(** C5: for a node of the registry, reached after the ids before it went
    through, that reads OPERATION ENABLED at a poll after the state
    request, the first poll or a later one, the clock being within the
    deadline at the polls before, [enableOperation] returns normally
    (with enough fuel), and the node object in the registry then holds
    OPERATION ENABLED as its operational state.  The call sent the state
    request and one read per poll, and slept 1 ms after the loop. *)
Theorem enableOperation_success env f0 pre id w w1 n k :
  enableOperation env f0 (PyList pre) w = Some (Ok tt, w1) ->
  lookup id (nodes w1) = Some n ->
  fails env (bus_connected w1) (EvSetState id OPERATION_ENABLED) = false ->
  fails env (bus_connected w1) (EvGetState id) = false ->
  (forall j, (j < k)%nat ->
     dev_state env id (state_reads n + j)%nat <> OPERATION_ENABLED) ->
  dev_state env id (state_reads n + k)%nat = OPERATION_ENABLED ->
  (forall j, (j < k)%nat ->
     clock env (S (ticks w1) + j)%nat <= clock env (ticks w1) + 15000000) ->
  exists w',
    (forall fuel, (f0 <= fuel)%nat -> (k < fuel)%nat ->
       enableOperation env fuel (PyList (pre ++ [PyInt id])) w
         = Some (Ok tt, w')) /\
    (exists n', lookup id (nodes w') = Some n' /\
                op_state n' = OPERATION_ENABLED /\
                state_reads n' = (state_reads n + S k)%nat) /\
    trace w' = trace w1 ++ EvSetState id OPERATION_ENABLED
                        :: repeat (EvGetState id) (S k) /\
    slept w' = slept w1 + 1000.
Proof.
  intros Hpre Hl Hset Hget Hnot Hyes Hclock.
  set (w0 := add_event (EvSetState id OPERATION_ENABLED)
               (set_ticks (S (ticks w1)) w1)).
  destruct (wait_enabled_success env id (clock env (ticks w1) + 15000000)
              k w0 n Hl Hget Hnot Hyes Hclock)
    as (w2 & Hrun & _ & Hs & Htr & n' & Hl' & Ho & Hr).
  exists (set_slept (slept w2 + 1000) w2). split; [|split; [|split]].
  - intros fuel Hf0 Hk.
    rewrite (enableOperation_after env f0 pre w w1 Hpre fuel _ [] Hf0),
      (enableOperation_body_eq env fuel id w1 n Hl Hset).
    fold w0. now rewrite (Hrun fuel Hk).
  - exists n'. simpl. auto.
  - simpl. rewrite Htr. simpl. rewrite <- app_assoc. reflexivity.
  - simpl. rewrite Hs. reflexivity.
Qed.

Lemma enableOperation_success_witness :
  exists w1 w',
    enableOperation slow_env 3 (PyList [PyInt 3]) (session three_nodes)
      = Some (Ok tt, w1) /\
    enableOperation slow_env 3 (PyList [PyInt 3; PyInt 2])
                    (session three_nodes) = Some (Ok tt, w') /\
    exists n', lookup 2 (nodes w') = Some n' /\
               op_state n' = OPERATION_ENABLED.
Proof.
  eexists.
  assert (Hpre : enableOperation slow_env 3 (PyList [PyInt 3])
                   (session three_nodes) = Some (Ok tt, _))
    by (vm_compute; reflexivity).
  destruct (enableOperation_success slow_env 3 [PyInt 3] 2
              (session three_nodes) _ idle_node 2 Hpre
              eq_refl eq_refl eq_refl)
    as (w' & Hrun & (n' & Hl & Ho & _) & _).
  - intros [|[|j]] Hj; [discriminate|discriminate|exfalso; lia].
  - reflexivity.
  - intros [|[|j]] Hj;
      [vm_compute; discriminate|vm_compute; discriminate|exfalso; lia].
  - exists w'. split; [exact Hpre|]. split.
    + apply (Hrun 3%nat); lia.
    + exists n'. split; assumption.
Defined.








(** C6, as the code has it: [enableOperation] is the one operation that
    checks its node ids.  When it reaches, after ids that went through, a
    value that is not an [int], it raises the not-int error; when it
    reaches an integer that is not in the registry, whatever its range, it
    raises the not-available error.  Either way the world, bus trace
    included, is as the earlier ids left it: nothing was sent on behalf of
    the rejected id. *)
Theorem enableOperation_rejects_before_transport env fuel pre v post w w1 :
  enableOperation env fuel (PyList pre) w = Some (Ok tt, w1) ->
  (type_is_int v = false ->
     enableOperation env fuel (PyList (pre ++ v :: post)) w
       = Some (Raise (Exc_not_int v), w1) /\
     spec_kind (Exc_not_int v) = InvalidNodeId) /\
  (forall z, v = PyInt z -> lookup z (nodes w1) = None ->
     enableOperation env fuel (PyList (pre ++ v :: post)) w
       = Some (Raise (Exc_not_available z), w1) /\
     spec_kind (Exc_not_available z) = UnknownNode).
Proof.
  unfold enableOperation. intros Hpre.
  rewrite (enableOperation_loop_app env fuel pre (v :: post) w w1 Hpre).
  split.
  - intros Hty. split; [|reflexivity].
    destruct v; try discriminate Hty; reflexivity.
  - intros z -> Hl. split; [|reflexivity].
    simpl. unfold bindP, lift, enableOperation_body, bindP, lift,
      Network_contains.
    run. rewrite Hl. reflexivity.
Qed.

Lemma enableOperation_rejects_before_transport_witness :
  exists w1,
    enableOperation ready_env 1 (PyList [PyInt 1]) (session three_nodes)
      = Some (Ok tt, w1) /\
    enableOperation ready_env 1 (PyList [PyInt 1; PyStr "2"; PyInt 3])
                    (session three_nodes)
      = Some (Raise (Exc_not_int (PyStr "2")), w1) /\
    trace w1 = [EvSetState 1 OPERATION_ENABLED; EvGetState 1].
Proof.
  eexists. split; [reflexivity|]. split; [|reflexivity].
  refine (proj1 (proj1 (enableOperation_rejects_before_transport ready_env 1
                          [PyInt 1] (PyStr "2") [PyInt 3]
                          (session three_nodes) _ eq_refl) eq_refl)).
Defined.

(** * Further properties of the constructor *)

Lemma init_registry env cfg : nodes (snd (__init__ env cfg)) = [].
Proof.
  rewrite init_eq. pose proof (init_try_registry env cfg) as Hn.
  destruct (init_try env cfg Network_new) as [[?|?] ?]; exact Hn.
Qed.

Lemma init_bus_connected env cfg :
  bus_connected (snd (__init__ env cfg)) =
    negb (fails env false (EvConnect (bustype cfg) (channel cfg) (bitrate cfg))).
Proof.
  rewrite init_eq.
  unfold init_try, Network_connect, Network_check, Scanner_search,
    time_sleep, lib_call.
  run.
  destruct (fails env false (EvConnect _ _ _)); simpl; [reflexivity|].
  destruct (fails env true EvCheck); simpl; [reflexivity|].
  destruct (fails env true EvSearch); simpl; [reflexivity|].
  destruct (node_ids cfg) as [ids|]; [|reflexivity].
  match goal with |- context [check_all_expected ids ?w0] =>
    destruct (check_all_expected_frame ids w0) as (_ & _ & Hb);
    destruct (check_all_expected ids w0) as [[?|?] ?]; simpl in *;
    rewrite Hb; reflexivity end.
Qed.

(** X1: the constructor stops its [try] at the first library call that
    raises.  When connect raises, neither check nor scan is called and the
    bus is not connected; when check raises, the scan is not called; when
    the scan raises, its settle time is not slept.  In the last two cases
    the bus stays connected.  Each time the error is logged with its
    traceback and the constructor returns normally. *)
Theorem init_stops_at_first_failed_call env cfg :
  let c := EvConnect (bustype cfg) (channel cfg) (bitrate cfg) in
  let logged e := [Log_exception e; Log_traceback e; Log_going_to_exit] in
  (fails env false c = true ->
     __init__ env cfg =
       (Ok tt, mkWorld false [] [] false 0%nat 0 [c] (logged (LibError c)))) /\
  (fails env false c = false -> fails env true EvCheck = true ->
     __init__ env cfg =
       (Ok tt, mkWorld true [] [] false 0%nat 0 [c; EvCheck]
                       (logged (LibError EvCheck)))) /\
  (fails env false c = false -> fails env true EvCheck = false ->
   fails env true EvSearch = true ->
     __init__ env cfg =
       (Ok tt, mkWorld true [] [] false 0%nat 0 [c; EvCheck; EvSearch]
                       (logged (LibError EvSearch)))).
Proof.
  cbv zeta. rewrite init_eq.
  unfold init_try, Network_connect, Network_check, Scanner_search,
    time_sleep, lib_call.
  run. split; [|split].
  - intros ->. reflexivity.
  - intros ->. simpl. intros ->. reflexivity.
  - intros ->. simpl. intros ->. simpl. intros ->. reflexivity.
Qed.

Lemma init_stops_at_first_failed_call_witness :
  bus_connected
    (snd (__init__ (mkEnv (fun _ ev => match ev with
                                       | EvCheck => true
                                       | _ => false
                                       end)
                          [2; 3] (fun _ _ => OPERATION_ENABLED) (fun _ => 0))
                   (can0 None))) = true.
Proof.
  pose proof (init_stops_at_first_failed_call
                (mkEnv (fun _ ev => match ev with
                                    | EvCheck => true
                                    | _ => false
                                    end)
                       [2; 3] (fun _ _ => OPERATION_ENABLED) (fun _ => 0))
                (can0 None)) as (_ & H & _).
  cbv zeta in H. rewrite (H eq_refl eq_refl). reflexivity.
Defined.

(** X2: when connect, check and scan go through, and either no expected
    ids were given or every expected id is an integer of [0,127] that
    answered the scan, the constructor returns normally with the bus
    connected, the scanner holding the ids that answered, the registry
    empty, 50 ms slept, exactly the three calls on the bus, and a log
    that ends with the going-to-exit line of the teardown block, which
    runs on success too.  Without expected ids this holds whatever
    answered the scan, even nothing. *)
Theorem init_success env cfg :
  fails env false (EvConnect (bustype cfg) (channel cfg) (bitrate cfg)) = false ->
  fails env true EvCheck = false ->
  fails env true EvSearch = false ->
  match node_ids cfg with
  | Some ids => Forall (valid_expected (scan_result env)) ids
  | None => True
  end ->
  __init__ env cfg =
    (Ok tt,
     mkWorld true (scan_result env) [] false 0%nat 50000 (init_calls cfg)
             [Log_available_nodes (scan_result env); Log_going_to_exit]).
Proof.
  intros H1 H2 H3 Hids.
  rewrite init_eq, (init_try_scanned env cfg H1 H2 H3).
  destruct (node_ids cfg) as [ids|]; [|reflexivity].
  now rewrite (check_all_expected_valid ids (scanned env cfg) Hids).
Qed.

Lemma init_success_witness :
  __init__ (mkEnv (fun _ _ => false) [] (fun _ _ => OPERATION_ENABLED)
                  (fun _ => 0))
           (can0 None)
  = (Ok tt,
     mkWorld true [] [] false 0%nat 50000 (init_calls (can0 None))
             [Log_available_nodes []; Log_going_to_exit]).
Proof.
  exact (init_success (mkEnv (fun _ _ => false) []
                             (fun _ _ => OPERATION_ENABLED) (fun _ => 0))
                      (can0 None) eq_refl eq_refl eq_refl I).
Defined.

(** X3: whatever the configuration and whatever fails, the constructor
    sends nothing on the bus but a prefix of connect, check, scan: never an
    NMT command, a sync stop or a disconnect.  It leaves the registry
    empty, and the bus connected exactly when connect went through. *)
Theorem init_bus_traffic env cfg :
  let w := snd (__init__ env cfg) in
  (exists k, trace w = firstn k (init_calls cfg)) /\
  nodes w = [] /\
  bus_connected w =
    negb (fails env false (EvConnect (bustype cfg) (channel cfg) (bitrate cfg))).
Proof.
  cbv zeta. split; [|split; [apply init_registry|]].
  - rewrite init_eq.
    unfold init_try, Network_connect, Network_check, Scanner_search,
      time_sleep, lib_call.
    run.
    destruct (fails env false (EvConnect _ _ _)); simpl; [now exists 1%nat|].
    destruct (fails env true EvCheck); simpl; [now exists 2%nat|].
    destruct (fails env true EvSearch); simpl; [now exists 3%nat|].
    exists 3%nat.
    destruct (node_ids cfg) as [ids|]; [|reflexivity].
    match goal with |- context [check_all_expected ids ?w0] =>
      destruct (check_all_expected_frame ids w0) as (_ & Ht & _);
      destruct (check_all_expected ids w0) as [[?|?] ?]; simpl in *;
      rewrite Ht; reflexivity end.
  - apply init_bus_connected.
Qed.

(** X4: on the network the constructor built, [disconnectNetwork] does
    nothing but write its log line: the registry is empty, so the teardown
    loop has nothing to run on and the disconnect inside it is not
    reached.  A bus the constructor connected is still connected
    afterwards. *)
Theorem init_then_disconnectNetwork env cfg :
  let w := snd (__init__ env cfg) in
  disconnectNetwork env w = (Ok tt, add_log Log_going_to_exit w) /\
  bus_connected (snd (disconnectNetwork env w)) =
    negb (fails env false (EvConnect (bustype cfg) (channel cfg) (bitrate cfg))).
Proof.
  cbv zeta.
  rewrite (teardown_empty env _ (init_registry env cfg)). split; [reflexivity|].
  simpl. apply init_bus_connected.
Qed.

(** X5: on the network the constructor built, [enableOperation] of a list
    with at least one element raises at its first element, without any
    bus traffic: the not-int error for a value that is not an [int], the
    not-available error for every integer, since the constructor puts no
    node into the registry. *)
Theorem init_then_enableOperation env cfg fuel v rest :
  let w := snd (__init__ env cfg) in
  enableOperation env fuel (PyList (v :: rest)) w
    = Some (Raise (rejection v), w).
Proof.
  cbv zeta. pose proof (init_registry env cfg) as Hn.
  simpl. unfold bindP.
  destruct v; try reflexivity.
  unfold enableOperation_body, bindP, lift, Network_contains. run.
  rewrite Hn. reflexivity.
Qed.

(** * Further properties of the checks of the expected ids *)

(** X6: the checks of the expected ids stop at the first id that raises:
    the ids after it are not looked at, so the outcome is the same whatever
    follows.  A failed run changes nothing in the world but the log, to
    which it adds one line, and a run that succeeds changes nothing at
    all. *)
Theorem check_all_expected_stops_at_first_error ids w :
  (forall e, fst (check_all_expected ids w) = Raise e ->
     (forall more,
        check_all_expected (ids ++ more) w = check_all_expected ids w) /\
     exists line, snd (check_all_expected ids w) = add_log line w) /\
  (fst (check_all_expected ids w) = Ok tt ->
     snd (check_all_expected ids w) = w).
Proof.
  induction ids as [|v rest IH].
  - split; [intros e He; discriminate|reflexivity].
  - rewrite check_all_expected_cons.
    pose proof (check_expected_ok v w) as Hok.
    assert (Hline : forall e, fst (check_expected v w) = Raise e ->
              exists line, snd (check_expected v w) = add_log line w).
    { intros e. rewrite check_expected_eq. destruct v; simpl; eauto.
      destruct ((z <? 0) || (z >? 127)); simpl; eauto.
      destruct (on_bus z (scanner_nodes w)); simpl; eauto. discriminate. }
    destruct (check_expected v w) as [[[]|e0] w0] eqn:Ev; simpl in *.
    + destruct (Hok eq_refl) as (_ & ->).
      destruct IH as (IHr & IHo). split; [|exact IHo].
      intros e He. destruct (IHr e He) as (Hmore & Hl).
      split; [|exact Hl].
      intros more. unfold bind. rewrite Ev. apply Hmore.
    + split; [|discriminate].
      intros e _. split; [|exact (Hline e0 eq_refl)].
      intros more. unfold bind. now rewrite Ev.
Qed.

Lemma check_all_expected_stops_at_first_error_witness :
  check_all_expected [PyInt 1; PyInt 4; PyStr "5"; PyInt 400]
                     (session three_nodes)
  = check_all_expected [PyInt 1; PyInt 4] (session three_nodes).
Proof.
  exact (proj1 (proj1 (check_all_expected_stops_at_first_error
                         [PyInt 1; PyInt 4] (session three_nodes))
                      (Exc_not_on_bus 4 [1; 2; 3]) eq_refl)
               [PyStr "5"; PyInt 400]).
Defined.

(** * Further properties of disconnectNetwork *)

(** X7: whatever the outcome, [disconnectNetwork] works on the first node
    of the registry only.  The entries after it are left as they are, no
    entry is added or removed, and what goes onto the bus is a non-empty
    prefix of the four calls for that one node: NMT state, stop guarding,
    sync stop, disconnect. *)
Theorem disconnectNetwork_first_node_only env w id n rest :
  nodes w = (id, n) :: rest ->
  exists n' k,
    nodes (snd (disconnectNetwork env w)) = (id, n') :: rest /\
    op_state n' = op_state n /\
    (1 <= k <= 4)%nat /\
    trace (snd (disconnectNetwork env w))
      = trace w ++ firstn k (teardown_calls id).
Proof.
  intros Hn. rewrite (teardown_nonempty env w id n rest Hn). cbv zeta.
  destruct (fails env (bus_connected w) (EvNmtState id PRE_OPERATIONAL));
    simpl.
  { eexists _, 1%nat. split; [reflexivity|]. repeat split; auto; lia. }
  destruct (fails env (bus_connected w) (EvStopGuarding id)); simpl.
  { eexists _, 2%nat. split; [reflexivity|].
    rewrite <- !app_assoc. repeat split; auto; lia. }
  destruct (fails env (bus_connected w) EvSyncStop); simpl.
  { eexists _, 3%nat. split; [reflexivity|].
    rewrite <- !app_assoc. repeat split; auto; lia. }
  destruct (fails env (bus_connected w) EvDisconnect); simpl;
    eexists _, 4%nat; (split; [reflexivity|]);
    rewrite <- !app_assoc; repeat split; auto; lia.
Qed.

Lemma disconnectNetwork_first_node_only_witness :
  exists n' k,
    nodes (snd (disconnectNetwork quiet_env (session three_nodes)))
      = (1, n') :: [(2, idle_node); (3, idle_node)] /\
    trace (snd (disconnectNetwork quiet_env (session three_nodes)))
      = firstn k (teardown_calls 1).
Proof.
  destruct (disconnectNetwork_first_node_only quiet_env
              (session three_nodes) 1 idle_node
              [(2, idle_node); (3, idle_node)] eq_refl)
    as (n' & k & Hn & _ & _ & Ht).
  exists n', k. split; [exact Hn|exact Ht].
Defined.

(** X8: on a registry with at least one node and a connected bus,
    [disconnectNetwork] returns normally exactly when none of its four
    library calls raises, and it leaves the bus disconnected exactly when
    it returns normally: if any of the four raises, the bus is still
    connected. *)
Theorem disconnectNetwork_disconnects_iff_ok env w id n rest :
  nodes w = (id, n) :: rest ->
  bus_connected w = true ->
  (fst (disconnectNetwork env w) = Ok tt <->
     forallb (fun ev => negb (fails env true ev)) (teardown_calls id) = true) /\
  (bus_connected (snd (disconnectNetwork env w)) = false <->
     fst (disconnectNetwork env w) = Ok tt).
Proof.
  intros Hn Hb. rewrite (teardown_nonempty env w id n rest Hn). cbv zeta.
  unfold teardown_calls, forallb. rewrite Hb.
  destruct (fails env true (EvNmtState id PRE_OPERATIONAL)); simpl;
    [rewrite Hb; repeat split; discriminate|].
  destruct (fails env true (EvStopGuarding id)); simpl;
    [rewrite Hb; repeat split; discriminate|].
  destruct (fails env true EvSyncStop); simpl;
    [rewrite Hb; repeat split; discriminate|].
  destruct (fails env true EvDisconnect); simpl;
    [rewrite Hb; repeat split; discriminate|].
  repeat split.
Qed.

Lemma disconnectNetwork_disconnects_iff_ok_witness :
  fst (disconnectNetwork (nmt_write_fails_on 1) (session three_nodes))
    <> Ok tt /\
  bus_connected
    (snd (disconnectNetwork (nmt_write_fails_on 1) (session three_nodes)))
    <> false.
Proof.
  destruct (disconnectNetwork_disconnects_iff_ok (nmt_write_fails_on 1)
              (session three_nodes) 1 idle_node
              [(2, idle_node); (3, idle_node)] eq_refl eq_refl)
    as (Hok & Hbus).
  assert (H : fst (disconnectNetwork (nmt_write_fails_on 1)
                     (session three_nodes)) <> Ok tt).
  { intros E. apply Hok in E. discriminate E. }
  split; [exact H|]. intros E. apply H, Hbus, E.
Defined.

(** X9: [disconnectNetwork] does not empty the registry, so a second call
    is not a no-op: it starts on the same first node again.  On a
    connected bus where no call of the teardown fails, the first call
    returns normally; with a library that raises from an NMT write on a
    bus that is not connected, the second call then raises that error at
    its first call, and leaves the bus disconnected and the registry as
    the first call left it. *)
Theorem disconnectNetwork_twice env w id n rest :
  nodes w = (id, n) :: rest ->
  bus_connected w = true ->
  (forall ev, teardown_event ev = true -> fails env true ev = false) ->
  fails env false (EvNmtState id PRE_OPERATIONAL) = true ->
  let w1 := snd (disconnectNetwork env w) in
  let r2 := disconnectNetwork env w1 in
  fst (disconnectNetwork env w) = Ok tt /\
  fst r2 = Raise (LibError (EvNmtState id PRE_OPERATIONAL)) /\
  nodes (snd r2) = nodes w1 /\
  bus_connected (snd r2) = false /\
  sync_running (snd r2) = false /\
  trace (snd r2)
    = trace w ++ teardown_calls id ++ [EvNmtState id PRE_OPERATIONAL].
Proof.
  intros Hn Hb Hok Hoff. cbv zeta.
  assert (E1 : exists w1, disconnectNetwork env w = (Ok tt, w1) /\
            nodes w1 = (id, set_node_guarding false
                              (set_nmt_state PRE_OPERATIONAL n)) :: rest /\
            bus_connected w1 = false /\
            sync_running w1 = false /\
            trace w1 = trace w ++ teardown_calls id).
  { rewrite (teardown_nonempty env w id n rest Hn). cbv zeta.
    rewrite Hb, !Hok by reflexivity. eexists. split; [reflexivity|].
    simpl. repeat split. rewrite <- !app_assoc. reflexivity. }
  destruct E1 as (w1 & -> & Hn1 & Hb1 & Hs1 & Ht1). simpl.
  rewrite (teardown_nonempty env w1 id _ rest Hn1). cbv zeta.
  rewrite Hb1, Hoff. simpl.
  rewrite Hn1, Hb1, Hs1, Ht1, <- !app_assoc. repeat split.
Qed.

Lemma disconnectNetwork_twice_witness :
  fst (disconnectNetwork quiet_env
         (snd (disconnectNetwork quiet_env (session three_nodes))))
  = Raise (LibError (EvNmtState 1 PRE_OPERATIONAL)).
Proof.
  exact (proj1 (proj2
    (disconnectNetwork_twice quiet_env (session three_nodes) 1 idle_node
       [(2, idle_node); (3, idle_node)] eq_refl eq_refl
       (fun ev _ => eq_refl) eq_refl))).
Defined.

(** * Further properties of enableOperation *)

Lemma lookup_update id i f l :
  lookup i (update id f l) =
    if Z.eqb i id then option_map f (lookup i l) else lookup i l.
Proof.
  induction l as [|[k n] rest IH]; simpl.
  - now destruct (Z.eqb i id).
  - destruct (Z.eqb id k) eqn:Ek; simpl.
    + apply Z.eqb_eq in Ek. subst k.
      destruct (Z.eqb i id); reflexivity.
    + destruct (Z.eqb i k) eqn:Eik.
      * apply Z.eqb_eq in Eik. subst k.
        rewrite Z.eqb_sym, Ek. reflexivity.
      * exact IH.
Qed.

Lemma update_keys id f l : map fst (update id f l) = map fst l.
Proof.
  induction l as [|[k n] rest IH]; simpl; [reflexivity|].
  destruct (Z.eqb id k); simpl; [reflexivity|now rewrite IH].
Qed.

Lemma enable_frame_refl w : enable_frame w w.
Proof.
  unfold enable_frame. repeat split; auto.
  exists []. now rewrite app_nil_r.
Qed.

Lemma enable_frame_trans w1 w2 w3 :
  enable_frame w1 w2 -> enable_frame w2 w3 -> enable_frame w1 w3.
Proof.
  intros (B1 & S1 & Y1 & L1 & K1 & N1 & G1 & ev1 & T1 & F1)
         (B2 & S2 & Y2 & L2 & K2 & N2 & G2 & ev2 & T2 & F2).
  unfold enable_frame.
  split; [congruence|]. split; [congruence|]. split; [congruence|].
  split; [congruence|]. split; [congruence|].
  split; [|split].
  - intros i. now rewrite N2, N1.
  - intros i. now rewrite G2, G1.
  - exists (ev1 ++ ev2). split.
    + now rewrite T2, T1, app_assoc.
    + rewrite forallb_app, F1, F2. reflexivity.
Qed.

Lemma enable_frame_event ev w :
  state_event ev = true -> enable_frame w (add_event ev w).
Proof.
  intros Hev. unfold enable_frame. simpl. repeat split; auto.
  exists [ev]. simpl. now rewrite Hev.
Qed.

Lemma enable_frame_observe id s w :
  enable_frame w (set_nodes (update id (observe_state s) (nodes w)) w).
Proof.
  unfold enable_frame. simpl.
  split; [reflexivity|]. split; [reflexivity|]. split; [reflexivity|].
  split; [reflexivity|]. split; [apply update_keys|].
  split; [|split].
  - intros i. rewrite lookup_update.
    destruct (Z.eqb i id); [|reflexivity].
    now destruct (lookup i (nodes w)).
  - intros i. rewrite lookup_update.
    destruct (Z.eqb i id); [|reflexivity].
    now destruct (lookup i (nodes w)).
  - exists []. now rewrite app_nil_r.
Qed.

Lemma enable_frame_clock k w : enable_frame w (set_ticks k w).
Proof.
  unfold enable_frame. simpl. repeat split; auto.
  exists []. now rewrite app_nil_r.
Qed.

Lemma enable_frame_sleep z w : enable_frame w (set_slept z w).
Proof.
  unfold enable_frame. simpl. repeat split; auto.
  exists []. now rewrite app_nil_r.
Qed.

(** One read of [node.state], whatever comes of it. *)
Lemma Node_get_state_cases env id w :
  (exists e, Node_get_state env id w = (Raise e, add_event (EvGetState id) w)) \/
  (exists n,
     lookup id (nodes w) = Some n /\
     Node_get_state env id w =
       (Ok (dev_state env id (state_reads n)),
        set_nodes (update id (observe_state (dev_state env id (state_reads n)))
                          (nodes w))
                  (add_event (EvGetState id) w))).
Proof.
  unfold Node_get_state, update_node, lib_call. run.
  destruct (fails env (bus_connected w) (EvGetState id)); simpl; [left; eauto|].
  destruct (lookup id (nodes w)) as [n|]; simpl; [right|left]; eauto.
Qed.

Lemma Node_get_state_frame env id w :
  enable_frame w (snd (Node_get_state env id w)) /\
  slept (snd (Node_get_state env id w)) = slept w /\
  ticks (snd (Node_get_state env id w)) = ticks w.
Proof.
  destruct (Node_get_state_cases env id w) as [(e & ->)|(n & _ & ->)]; simpl.
  - split; [now apply enable_frame_event|auto].
  - split; [|auto].
    eapply enable_frame_trans; [apply (enable_frame_event (EvGetState id) w);
                                reflexivity|].
    apply (enable_frame_observe id _ (add_event (EvGetState id) w)).
Qed.

Lemma wait_enabled_frame env id node timeout : forall fuel w r w',
  wait_enabled env fuel id node timeout w = Some (r, w') ->
  enable_frame w w' /\ slept w' = slept w.
Proof.
  induction fuel as [|fuel IH]; intros w r w' Hrun; [discriminate|].
  simpl in Hrun.
  destruct (Node_get_state_frame env node w) as (Hf & Hs & _).
  destruct (Node_get_state env node w) as [[s|e] w1]; simpl in Hf, Hs.
  - destruct (negb (String.eqb s OPERATION_ENABLED)).
    + unfold time_time in Hrun.
      destruct (clock env (ticks w1) >? timeout).
      * injection Hrun as <- <-. split; [|exact Hs].
        eapply enable_frame_trans; [exact Hf|apply enable_frame_clock].
      * destruct (IH _ _ _ Hrun) as (Hf' & Hs').
        split; [|simpl in Hs'; congruence].
        eapply enable_frame_trans; [exact Hf|].
        eapply enable_frame_trans; [apply enable_frame_clock|exact Hf'].
    + injection Hrun as <- <-. auto.
  - injection Hrun as <- <-. auto.
Qed.

Lemma enableOperation_body_frame env fuel v w r w' :
  enableOperation_body env fuel v w = Some (r, w') -> enable_frame w w'.
Proof.
  destruct v; simpl;
    try (intros [= <- <-]; apply enable_frame_refl).
  unfold bindP, lift, Network_contains, Network_getitem, Node_set_state,
    time_time, time_sleep, lib_call.
  run.
  destruct (lookup z (nodes w)) as [n|] eqn:Hl; simpl;
    [|intros [= <- <-]; apply enable_frame_refl].
  rewrite Hl. simpl.
  set (w0 := add_event (EvSetState z OPERATION_ENABLED)
               (set_ticks (S (ticks w)) w)).
  assert (H0 : enable_frame w w0).
  { eapply enable_frame_trans; [apply enable_frame_clock|].
    now apply enable_frame_event. }
  destruct (fails env (bus_connected w) (EvSetState z OPERATION_ENABLED)); simpl;
    [intros [= <- <-]; exact H0|].
  destruct (wait_enabled env fuel z z _ w0) as [[[[]|e] w1]|] eqn:Hw;
    try discriminate.
  - intros [= <- <-].
    destruct (wait_enabled_frame env z z _ _ _ _ _ Hw) as (H1 & _).
    eapply enable_frame_trans; [exact H0|].
    eapply enable_frame_trans; [exact H1|apply enable_frame_sleep].
  - intros [= <- <-].
    destruct (wait_enabled_frame env z z _ _ _ _ _ Hw) as (H1 & _).
    eapply enable_frame_trans; [exact H0|exact H1].
Qed.

Lemma enableOperation_loop_frame env fuel ids : forall w r w',
  enableOperation_loop env fuel ids w = Some (r, w') -> enable_frame w w'.
Proof.
  induction ids as [|v rest IH]; intros w r w'.
  - intros [= <- <-]. apply enable_frame_refl.
  - simpl. unfold bindP.
    destruct (enableOperation_body env fuel v w) as [[[[]|e] w1]|] eqn:Hb;
      try discriminate.
    + intros Hrest. eapply enable_frame_trans.
      * exact (enableOperation_body_frame _ _ _ _ _ _ Hb).
      * exact (IH _ _ _ Hrest).
    + intros [= <- <-]. exact (enableOperation_body_frame _ _ _ _ _ _ Hb).
Qed.

(** X10: whatever it is given and however it ends, [enableOperation]
    leaves the connection, the scanner, the sync producer and the log as
    they were, adds or removes no entry of the registry, changes no node's
    NMT state or guarding, and sends nothing on the bus but writes and
    reads of [node.state]: no NMT command, no disconnect, and nothing that
    undoes a state request after a failure. *)
Theorem enableOperation_frame env fuel v w r w' :
  enableOperation env fuel v w = Some (r, w') -> enable_frame w w'.
Proof.
  destruct v; simpl;
    try (intros [= <- <-]; apply enable_frame_refl).
  apply enableOperation_loop_frame.
Qed.

Lemma enableOperation_frame_witness :
  exists w',
    enableOperation stuck_env 3 (PyList [PyInt 1]) (session three_nodes)
      = Some (Raise (Exc_timeout 1), w') /\
    enable_frame (session three_nodes) w'.
Proof.
  eexists. split; [reflexivity|].
  eapply (enableOperation_frame stuck_env 3 (PyList [PyInt 1])).
  reflexivity.
Defined.

(** X11: a list of ids is worked off in sequence, and the first failure
    ends the batch.  [enableOperation] on two lists joined is
    [enableOperation] on the first, then, if that returned normally, on the
    second from the world the first left; if the first raised, the ids of
    the second are not looked at, and what the first did is not undone. *)
Theorem enableOperation_app env fuel ids more w :
  enableOperation env fuel (PyList (ids ++ more)) w =
    match enableOperation env fuel (PyList ids) w with
    | Some (Ok _, w1) => enableOperation env fuel (PyList more) w1
    | Some (Raise e, w1) => Some (Raise e, w1)
    | None => None
    end.
Proof.
  unfold enableOperation. revert w.
  induction ids as [|v rest IH]; intros w; [reflexivity|].
  simpl. unfold bindP.
  destruct (enableOperation_body env fuel v w) as [[[[]|e] w1]|];
    [apply IH|reflexivity|reflexivity].
Qed.

(** X12: [enableOperation] on a node of the registry returns normally
    when the node reports OPERATION ENABLED at some poll and the clock was
    within the deadline at every poll before that one, however many polls
    it takes.  The state is read before the clock at each poll, so the
    clock reading at the successful poll itself does not matter.  The call
    then read the state once more than it read the clock in the loop,
    slept 1 ms once, and the node object holds OPERATION ENABLED. *)
Theorem enableOperation_success_after_polls env id w n k :
  lookup id (nodes w) = Some n ->
  fails env (bus_connected w) (EvSetState id OPERATION_ENABLED) = false ->
  fails env (bus_connected w) (EvGetState id) = false ->
  (forall j, (j < k)%nat ->
     dev_state env id (state_reads n + j)%nat <> OPERATION_ENABLED) ->
  dev_state env id (state_reads n + k)%nat = OPERATION_ENABLED ->
  (forall j, (j < k)%nat ->
     clock env (S (ticks w) + j)%nat <= clock env (ticks w) + 15000000) ->
  exists w',
    (forall fuel, (k < fuel)%nat ->
       enableOperation env fuel (PyList [PyInt id]) w = Some (Ok tt, w')) /\
    ticks w' = (S (ticks w) + k)%nat /\
    slept w' = slept w + 1000 /\
    exists n', lookup id (nodes w') = Some n' /\
               op_state n' = OPERATION_ENABLED /\
               state_reads n' = (state_reads n + S k)%nat.
Proof.
  intros Hl Hset Hget Hnot Hyes Hclock.
  set (w0 := add_event (EvSetState id OPERATION_ENABLED)
               (set_ticks (S (ticks w)) w)).
  destruct (wait_enabled_success env id (clock env (ticks w) + 15000000)
              k w0 n Hl Hget Hnot Hyes Hclock)
    as (w1 & Hrun & Ht & Hs & _ & n' & Hl' & Ho & Hr).
  exists (set_slept (slept w1 + 1000) w1). split; [|split; [|split]].
  - intros fuel Hfuel.
    rewrite enableOperation_single,
      (enableOperation_body_eq env fuel id w n Hl Hset).
    fold w0. now rewrite (Hrun fuel Hfuel).
  - simpl. exact Ht.
  - simpl. rewrite Hs. reflexivity.
  - exists n'. simpl. auto.
Qed.

Lemma enableOperation_success_after_polls_witness :
  exists w',
    enableOperation slow_env 3 (PyList [PyInt 2]) (session three_nodes)
      = Some (Ok tt, w') /\
    ticks w' = 3%nat.
Proof.
  destruct (enableOperation_success_after_polls slow_env 2
              (session three_nodes) idle_node 2 eq_refl eq_refl eq_refl)
    as (w' & Hrun & Ht & _).
  - intros [|[|j]] Hj; try discriminate. lia.
  - reflexivity.
  - intros [|[|j]] Hj; simpl; lia.
  - exists w'. split; [apply Hrun; lia|exact Ht].
Defined.

(** A polling loop that returned normally read OPERATION ENABLED on its
    node and changed no other node. *)
Lemma wait_enabled_ok env id node timeout : forall fuel w w',
  wait_enabled env fuel id node timeout w = Some (Ok tt, w') ->
  enabled_in node w' /\
  (forall i, i <> node -> lookup i (nodes w') = lookup i (nodes w)) /\
  slept w' = slept w.
Proof.
  induction fuel as [|fuel IH]; intros w w' Hrun; [discriminate|].
  simpl in Hrun.
  destruct (Node_get_state_cases env node w) as [(e & E)|(n & Hl & E)];
    rewrite E in Hrun; [discriminate|].
  set (s := dev_state env node (state_reads n)) in *.
  assert (Hother : forall i, i <> node ->
            lookup i (update node (observe_state s) (nodes w))
              = lookup i (nodes w)).
  { intros i Hi. rewrite lookup_update.
    destruct (Z.eqb i node) eqn:Ei; [|reflexivity].
    apply Z.eqb_eq in Ei. contradiction. }
  destruct (String.eqb s OPERATION_ENABLED) eqn:Es; simpl in Hrun.
  - injection Hrun as <-. apply String.eqb_eq in Es.
    split; [|split; [exact Hother|reflexivity]].
    exists (observe_state s n). simpl.
    rewrite lookup_update_same, Hl. auto.
  - unfold time_time in Hrun.
    destruct (clock env _ >? timeout); [discriminate|].
    destruct (IH _ _ Hrun) as (Hen & Hoth & Hs).
    split; [exact Hen|]. split; [|exact Hs].
    intros i Hi. rewrite (Hoth i Hi). simpl. now apply Hother.
Qed.

Lemma enableOperation_body_ok env fuel v w w' :
  enableOperation_body env fuel v w = Some (Ok tt, w') ->
  exists z,
    v = PyInt z /\
    Network_contains z w = true /\
    enabled_in z w' /\
    (forall i, i <> z -> lookup i (nodes w') = lookup i (nodes w)) /\
    slept w' = slept w + 1000.
Proof.
  destruct v; simpl; try discriminate.
  unfold bindP, lift, Network_contains, Network_getitem, Node_set_state,
    time_time, time_sleep, lib_call.
  run.
  destruct (lookup z (nodes w)) as [n|] eqn:Hl; simpl; [|discriminate].
  rewrite Hl. simpl.
  destruct (fails env (bus_connected w) (EvSetState z OPERATION_ENABLED)); simpl;
    [discriminate|].
  destruct (wait_enabled env fuel z z _ _) as [[[[]|e] w1]|] eqn:Hw;
    try discriminate.
  intros [= <-].
  destruct (wait_enabled_ok env z z _ _ _ _ Hw) as (Hen & Hoth & Hs).
  exists z. split; [reflexivity|]. split; [now rewrite Hl|].
  split; [exact Hen|]. split; [exact Hoth|]. simpl. now rewrite Hs.
Qed.

(** X13: when [enableOperation] on a list returns normally, every element
    of the list is an integer that was in the registry, every listed node
    last read OPERATION ENABLED (an id listed twice included), and the call
    slept 1 ms for each element, 0 ms for the empty list, which is
    accepted. *)
Theorem enableOperation_batch_success env fuel ids w w' :
  enableOperation env fuel (PyList ids) w = Some (Ok tt, w') ->
  slept w' = slept w + 1000 * Z.of_nat (List.length ids) /\
  forall v, In v ids ->
    exists z, v = PyInt z /\ Network_contains z w = true /\ enabled_in z w'.
Proof.
  unfold enableOperation. revert w.
  induction ids as [|v rest IH]; intros w.
  - intros [= <-]. split; [simpl; lia|]. intros v [].
  - simpl enableOperation_loop. unfold bindP.
    destruct (enableOperation_body env fuel v w) as [[[[]|e] w1]|] eqn:Hb;
      try discriminate.
    intros Hrest.
    destruct (enableOperation_body_ok env fuel v w w1 Hb)
      as (z & -> & Hin & Hen & Hoth & Hs).
    destruct (IH w1 Hrest) as (Hs' & Hall).
    destruct (enableOperation_body_frame env fuel _ _ _ _ Hb)
      as (_ & _ & _ & _ & Hkeys & Hnmt & _).
    split.
    + rewrite Hs', Hs. simpl List.length. lia.
    + intros v [<-|Hv].
      * exists z. split; [reflexivity|]. split; [exact Hin|].
        (* the rest of the batch keeps node [z] enabled *)
        clear IH Hs' Hall Hb Hs Hoth Hin Hkeys Hnmt.
        revert w1 Hen Hrest.
        induction rest as [|u rest IHr]; intros w1 Hen.
        { intros [= <-]. exact Hen. }
        simpl enableOperation_loop. unfold bindP.
        destruct (enableOperation_body env fuel u w1) as [[[[]|e] w2]|] eqn:Hu;
          try discriminate.
        intros Hrest. apply (IHr w2); [|exact Hrest].
        destruct (enableOperation_body_ok env fuel u w1 w2 Hu)
          as (y & _ & _ & Hy & Hoth & _).
        destruct (Z.eq_dec z y) as [->|Hne]; [exact Hy|].
        destruct Hen as (n & Hl & Ho). exists n.
        rewrite (Hoth z Hne). auto.
      * destruct (Hall v Hv) as (y & -> & Hy & Hen').
        exists y. split; [reflexivity|]. split; [|exact Hen'].
        unfold Network_contains in *.
        specialize (Hnmt y).
        destruct (lookup y (nodes w1)); [|discriminate].
        destruct (lookup y (nodes w)); [reflexivity|discriminate].
Qed.

Lemma enableOperation_batch_success_witness :
  exists w',
    enableOperation ready_env 1 (PyList [PyInt 3; PyInt 1; PyInt 3])
                    (session three_nodes) = Some (Ok tt, w') /\
    slept w' = 3000 /\
    enabled_in 1 w' /\ enabled_in 3 w'.
Proof.
  eexists. split; [vm_compute; reflexivity|].
  match goal with |- slept ?w1 = _ /\ _ =>
    assert (H : slept w1 = slept (session three_nodes)
                           + 1000 * Z.of_nat (List.length
                                       [PyInt 3; PyInt 1; PyInt 3]) /\
                forall v, In v [PyInt 3; PyInt 1; PyInt 3] ->
                  exists z, v = PyInt z /\
                            Network_contains z (session three_nodes) = true /\
                            enabled_in z w1)
      by (apply (enableOperation_batch_success ready_env 1);
          vm_compute; reflexivity)
  end.
  destruct H as (Hs & Hall).
  split; [exact Hs|]. split.
  - destruct (Hall (PyInt 1)) as (z & E & _ & Hen); [simpl; auto|].
    injection E as <-. exact Hen.
  - destruct (Hall (PyInt 3)) as (z & E & _ & Hen); [simpl; auto|].
    injection E as <-. exact Hen.
Defined.

(** X14: when the library raises on the write of [node.state], that error
    reaches the caller of [enableOperation] as it is.  The clock was read
    once for the timeout, the node is not polled, nothing is slept, and
    the ids after it are not looked at. *)
Theorem enableOperation_state_write_fails env fuel id rest w n :
  lookup id (nodes w) = Some n ->
  fails env (bus_connected w) (EvSetState id OPERATION_ENABLED) = true ->
  enableOperation env fuel (PyList (PyInt id :: rest)) w =
    Some (Raise (LibError (EvSetState id OPERATION_ENABLED)),
          add_event (EvSetState id OPERATION_ENABLED)
                    (set_ticks (S (ticks w)) w)).
Proof.
  intros Hl Hf. simpl.
  unfold bindP, lift, enableOperation_body, bindP, lift, Network_contains,
    Network_getitem, Node_set_state, time_time, lib_call.
  run. rewrite Hl. simpl. rewrite Hl. simpl. rewrite Hf. reflexivity.
Qed.

Lemma enableOperation_state_write_fails_witness :
  enableOperation write_fails_env 0 (PyList [PyInt 2; PyInt 3])
                  (session three_nodes)
  = Some (Raise (LibError (EvSetState 2 OPERATION_ENABLED)),
          add_event (EvSetState 2 OPERATION_ENABLED)
                    (set_ticks 1 (session three_nodes))).
Proof.
  exact (enableOperation_state_write_fails write_fails_env
           0 2 [PyInt 3] (session three_nodes) idle_node eq_refl eq_refl).
Defined.

(** The polling loop has two ways out only. *)
Lemma wait_enabled_no_exit env id timeout : forall fuel w n,
  lookup id (nodes w) = Some n ->
  fails env (bus_connected w) (EvGetState id) = false ->
  (forall j, dev_state env id (state_reads n + j)%nat <> OPERATION_ENABLED) ->
  (forall j, clock env (ticks w + j)%nat <= timeout) ->
  wait_enabled env fuel id id timeout w = None.
Proof.
  induction fuel as [|fuel IH]; intros w n Hl Hget Hnever Hclock;
    [reflexivity|].
  simpl wait_enabled.
  rewrite (Node_get_state_eq env id w n Hl Hget).
  pose proof (Hnever 0%nat) as H0. rewrite Nat.add_0_r in H0.
  apply String.eqb_neq in H0. rewrite H0. simpl.
  pose proof (Hclock 0%nat) as Hc. rewrite Nat.add_0_r in Hc.
  replace (clock env (ticks w) >? timeout) with false
    by (symmetry; rewrite Z.gtb_ltb; apply Z.ltb_ge; exact Hc).
  apply (IH _ (observe_state (dev_state env id (state_reads n)) n)).
  - simpl. now rewrite lookup_update_same, Hl.
  - exact Hget.
  - intros j. simpl.
    replace (S (state_reads n + j))%nat with (state_reads n + S j)%nat by lia.
    apply Hnever.
  - intros j. simpl.
    replace (S (ticks w + j))%nat with (ticks w + S j)%nat by lia.
    apply Hclock.
Qed.

(** X15: when the library raises from neither the state request nor the
    reads of the state, the polling loop of [enableOperation] ends only on
    a read of OPERATION ENABLED or on a reading of [time.time()] past the
    deadline.  For a node that never reports OPERATION ENABLED, if the
    clock readings never get past the deadline (a wall clock that stands
    still or is set back), the call then does not return: no amount of
    fuel yields a result. *)
Theorem enableOperation_needs_clock_progress env id w n :
  lookup id (nodes w) = Some n ->
  fails env (bus_connected w) (EvSetState id OPERATION_ENABLED) = false ->
  fails env (bus_connected w) (EvGetState id) = false ->
  (forall j, dev_state env id (state_reads n + j)%nat <> OPERATION_ENABLED) ->
  (forall j, clock env (S (ticks w) + j)%nat
             <= clock env (ticks w) + 15000000) ->
  forall fuel rest,
    enableOperation env fuel (PyList (PyInt id :: rest)) w = None.
Proof.
  intros Hl Hset Hget Hnever Hclock fuel rest.
  change (enableOperation env fuel (PyList (PyInt id :: rest)) w)
    with (bindP (enableOperation_body env fuel (PyInt id))
                (fun _ => enableOperation_loop env fuel rest) w).
  unfold bindP.
  rewrite (enableOperation_body_eq env fuel id w n Hl Hset).
  now rewrite (wait_enabled_no_exit env id (clock env (ticks w) + 15000000)
                 fuel (add_event (EvSetState id OPERATION_ENABLED)
                         (set_ticks (S (ticks w)) w))
                 n Hl Hget Hnever Hclock).
Qed.

Lemma enableOperation_needs_clock_progress_witness :
  enableOperation frozen_env 1000 (PyList [PyInt 1; PyInt 2])
                  (session three_nodes) = None.
Proof.
  apply (enableOperation_needs_clock_progress frozen_env 1
           (session three_nodes) idle_node eq_refl eq_refl eq_refl).
  - intros j. discriminate.
  - intros j. simpl. lia.
Defined.
